(** * Referencime MCP server: the tool-call handler, the gateway and the formatters

    A shallow embedding of [bin/start.js] (both server variants: the
    refactored 2.0.0 server with five tools, and the 1.1.3 server with seven).

    - JSON data received from the caller or from the backend is an untyped
      [value]; property reads, truthiness, string conversion and the other
      JavaScript operations the handlers use are functions on [value].
    - Numbers are exact rationals ([Q]); a computed number that may be NaN
      is a [num] ([None] is NaN).  Non-finite numbers and the rounding of
      IEEE doubles are outside the model.
    - Exceptions are explicit: code that may throw returns [exn + A].
    - The outside world (the environment variable holding the API key and the
      backend reached through [fetch]) is a [world]; the gateway returns, next
      to its result, the list of HTTP requests it issued.
    - Locale- and engine-dependent builtins ([toLocaleString], [toUpperCase],
      date formatting, the text of engine-raised TypeErrors, ...) are the
      fields of a [Runtime]; every theorem holds for every runtime. *)

From Stdlib Require Import String Ascii List ZArith QArith Qabs Qround Qcanon Lia Bool DecimalString
  Permutation.
Import ListNotations.
Close Scope Qc_scope.
Close Scope Q_scope.
Open Scope string_scope.

Set Warnings "-register-all".

(** ** Values *)

Inductive value : Type :=
| VUndefined
| VNull
| VBool (b : bool)
| VNum (q : Q)
| VStr (s : string)
| VArr (items : list value)
| VObj (props : list (string * value)).

(** A computed number: [None] is NaN. *)
Definition num : Type := option Q.

(** What the engine found when it raised a TypeError. *)
Inductive fault : Type :=
| ReadOfNullish (base : value) (prop : string)
| NotAFunction (callee : string).

(** Thrown values.  [Error] is the program's own [throw new Error(msg)];
    [TypeError] is raised by the engine inside the handler; [Rejected] is an
    Error coming from outside ([fetch] or [response.json()] rejecting). *)
Inductive exn : Type :=
| Error (msg : string)
| TypeError (f : fault)
| Rejected (msg : string).

(** ** Argument schemas (zod) *)

Inductive ztype : Type := ZNumber | ZBoolean | ZString | ZArrayOfString.

(** One field of a [z.object({...})]: [z.T()] is required; [z.T().optional()]
    has [optional = true]; [.default(d)] gives [default = Some d]. *)
Record zfield : Type := mkField {
  fname : string;
  ftype : ztype;
  optional : bool;
  default : option value
}.

Definition zschema : Type := list zfield.

Inductive issue : Type :=
| ExpectedObject (received : value)
| Required (path : string)
| InvalidType (path : string) (expected : ztype) (received : value).

(** ** The runtime *)

Class Runtime : Type := {
  (** [Number::toString] for a number that is not an integer below 10^21 *)
  frac_toString : Q -> string;
  (** [ToNumber] on a string; [None] is NaN *)
  StringToNumber : string -> num;
  (** [x.toLocaleString()] on a value that is neither undefined nor null *)
  toLocaleString : value -> string;
  (** [s.toUpperCase()] *)
  toUpperCase : string -> string;
  (** [new Date(x).toLocaleDateString('fr-FR')] *)
  toLocaleDateString_fr : value -> string;
  (** [new Date(x).toLocaleString('fr-FR')] *)
  toLocaleString_fr : value -> string;
  (** the message of an engine-raised TypeError *)
  fault_message : fault -> string;
  (** [parsed.error.message] of a failed [safeParse] *)
  zod_message : list issue -> string
}.

(** ** The error monad *)

Definition ret {A : Type} (a : A) : exn + A := inr a.

Definition bind {A B : Type} (m : exn + A) (f : A -> exn + B) : exn + B :=
  match m with
  | inl e => inl e
  | inr a => f a
  end.

Notation "'let*' x := m 'in' k" := (bind m (fun x => k))
  (at level 10, x name, m at level 100, k at level 200).

Fixpoint mapM {A B : Type} (f : A -> exn + B) (l : list A) : exn + list B :=
  match l with
  | [] => ret []
  | a :: rest =>
      let* b := f a in
      let* bs := mapM f rest in
      ret (b :: bs)
  end.

(** ** JavaScript operations on values *)

Definition string_of_Z (z : Z) : string := NilZero.string_of_int (Z.to_int z).

Definition string_of_nat (n : nat) : string := string_of_Z (Z.of_nat n).

Definition is_nullish (v : value) : bool :=
  match v with
  | VUndefined | VNull => true
  | _ => false
  end.

(** [Boolean(v)] *)
Definition truthy (v : value) : bool :=
  match v with
  | VUndefined | VNull => false
  | VBool b => b
  | VNum q => negb (Qeq_bool q 0)
  | VStr s => negb (s =? "")
  | VArr _ | VObj _ => true
  end.

(** [a || b] *)
Definition js_or (a b : value) : value := if truthy a then a else b.

Fixpoint lookup (p : string) (props : list (string * value)) : value :=
  match props with
  | [] => VUndefined
  | (k, v) :: rest => if k =? p then v else lookup p rest
  end.

(** [Array.prototype.join] on strings *)
Definition join (sep : string) (l : list string) : string := String.concat sep l.

(** [s.repeat(n)] *)
Fixpoint repeat_string (s : string) (n : nat) : string :=
  match n with
  | O => ""
  | S m => s ++ repeat_string s m
  end.

(** [xs.slice(0, n)] *)
Definition slice0 {A : Type} (n : nat) (xs : list A) : list A := firstn n xs.

Section Operations.
Context {rt : Runtime}.

Definition message (e : exn) : string :=
  match e with
  | Error m => m
  | TypeError f => fault_message f
  | Rejected m => m
  end.

(** [Number::toString]: a decimal numeral for an integer below 10^21. *)
Definition Number_toString (q : Q) : string :=
  let r := Qred q in
  if (Qden r =? 1)%positive && (Z.abs (Qnum r) <? 10 ^ 21)%Z
  then string_of_Z (Qnum r)
  else frac_toString q.

Definition num_toString (n : num) : string :=
  match n with
  | Some q => Number_toString q
  | None => "NaN"
  end.

(** [String(v)], the conversion a template literal applies. *)
Fixpoint to_string (v : value) : string :=
  match v with
  | VUndefined => "undefined"
  | VNull => "null"
  | VBool true => "true"
  | VBool false => "false"
  | VNum q => Number_toString q
  | VStr s => s
  | VArr items =>
      join "," (map (fun x => if is_nullish x then "" else to_string x) items)
  | VObj _ => "[object Object]"
  end.

(** [v.p] for a data property [p]: reading a property of undefined or null
    throws; a property the object does not have is undefined.  ([p] is never
    the name of a builtin member in the handlers.) *)
Definition get (v : value) (p : string) : exn + value :=
  match v with
  | VUndefined | VNull => inl (TypeError (ReadOfNullish v p))
  | VObj props => ret (lookup p props)
  | _ => ret VUndefined
  end.

(** [v?.p] *)
Definition get_opt (v : value) (p : string) : value :=
  match v with
  | VObj props => lookup p props
  | _ => VUndefined
  end.

(** The receiver of an array method ([v.map(...)], [v.forEach(...)],
    [v.slice(...).map(...)], [v.filter(...)], [v.flatMap(...)]): JSON data
    that is not an array has no such function. *)
Definition array_method (v : value) (method : string) : exn + list value :=
  match v with
  | VArr items => ret items
  | VUndefined | VNull => inl (TypeError (ReadOfNullish v method))
  | _ => inl (TypeError (NotAFunction method))
  end.

(** The receiver of [v.slice(0, n).map(...)]: a string has [slice] but its
    result has no [map]. *)
Definition slice_map_receiver (v : value) : exn + list value :=
  match v with
  | VStr _ => inl (TypeError (NotAFunction "map"))
  | _ => array_method v "slice"
  end.

(** [ToNumber] *)
Definition ToNumber (v : value) : num :=
  match v with
  | VUndefined => None
  | VNull => Some 0%Q
  | VBool b => Some (if b then 1%Q else 0%Q)
  | VNum q => Some q
  | VStr _ | VArr _ | VObj _ => StringToNumber (to_string v)
  end.

(** [v > q] for a number literal [q] *)
Definition js_gt (v : value) (q : Q) : bool :=
  match ToNumber v with
  | Some x => negb (Qle_bool x q)
  | None => false
  end.

(** [v < q] for a number literal [q] *)
Definition js_lt (v : value) (q : Q) : bool :=
  match ToNumber v with
  | Some x => negb (Qle_bool q x)
  | None => false
  end.

(** [v >= q] for a number literal [q] *)
Definition js_ge (v : value) (q : Q) : bool :=
  match ToNumber v with
  | Some x => Qle_bool q x
  | None => false
  end.

(** [v === q] for a number literal [q] *)
Definition js_strict_eq_num (v : value) (q : Q) : bool :=
  match v with
  | VNum x => Qeq_bool x q
  | _ => false
  end.

(** [v === s] for a string literal [s] *)
Definition js_strict_eq_str (v : value) (s : string) : bool :=
  match v with
  | VStr x => x =? s
  | _ => false
  end.

(** [v - q] and [v * q] for a number literal [q] *)
Definition js_sub (v : value) (q : Q) : num :=
  match ToNumber v with
  | Some x => Some (x - q)%Q
  | None => None
  end.

Definition js_mul (v : value) (q : Q) : num :=
  match ToNumber v with
  | Some x => Some (x * q)%Q
  | None => None
  end.

(** [Number.prototype.toFixed(d)] on an exact rational: round the magnitude
    half up to [d] decimals, then print sign, integer part and [d] digits. *)
Definition pad_left (width : nat) (s : string) : string :=
  repeat_string "0" (width - String.length s)%nat ++ s.

Definition toFixed (d : nat) (q : Q) : string :=
  let a := Z.abs (Qnum q) in
  let b := Zpos (Qden q) in
  let scale := (10 ^ Z.of_nat d)%Z in
  let n := ((2 * a * scale + b) / (2 * b))%Z in
  if (10 ^ 21 * b <=? a)%Z then Number_toString q
  else
    (if (Qnum q <? 0)%Z then "-" else "") ++
    string_of_Z (n / scale) ++
    match d with
    | O => ""
    | _ => "." ++ pad_left d (string_of_Z (n mod scale))
    end.

Definition num_toFixed (d : nat) (n : num) : string :=
  match n with
  | Some q => toFixed d q
  | None => "NaN"
  end.

(** [v.toFixed(d)] on a JSON value *)
Definition call_toFixed (d : nat) (v : value) : exn + string :=
  match v with
  | VNum q => ret (toFixed d q)
  | VUndefined | VNull => inl (TypeError (ReadOfNullish v "toFixed"))
  | _ => inl (TypeError (NotAFunction "toFixed"))
  end.

(** [v.toLocaleString()] on a JSON value *)
Definition call_toLocaleString (v : value) : exn + string :=
  if is_nullish v then inl (TypeError (ReadOfNullish v "toLocaleString"))
  else ret (toLocaleString v).

(** [v.toUpperCase()] on a JSON value *)
Definition call_toUpperCase (v : value) : exn + string :=
  match v with
  | VStr s => ret (toUpperCase s)
  | VUndefined | VNull => inl (TypeError (ReadOfNullish v "toUpperCase"))
  | _ => inl (TypeError (NotAFunction "toUpperCase"))
  end.

End Operations.

(** ** Validation: [schema.safeParse(args)]

    Modelled from the spec: [safeParse] is the zod library's, whose code is
    not in the repository; the schemas it is applied to are the source's.
    The Request Validator of the specification, which is zod's [z.object]
    in its default mode: the input must be an object; each declared field
    is read from it, an absent field takes its default or, if optional, is
    left out, a present field must have exactly the declared type (no
    coercion); every offending field is reported with the type expected;
    fields that are not declared do not reach the output. *)

Definition has_type (t : ztype) (v : value) : bool :=
  match t, v with
  | ZNumber, VNum _ => true
  | ZBoolean, VBool _ => true
  | ZString, VStr _ => true
  | ZArrayOfString, VArr items =>
      forallb (fun x => match x with VStr _ => true | _ => false end) items
  | _, _ => false
  end.

(** One declared field against the input's properties: the field's
    contribution to the output, or the issue it raises. *)
Definition parse_field (props : list (string * value)) (f : zfield)
  : issue + list (string * value) :=
  match lookup (fname f) props with
  | VUndefined =>
      match default f with
      | Some d => inr [(fname f, d)]
      | None => if optional f then inr [] else inl (Required (fname f))
      end
  | v =>
      if has_type (ftype f) v then inr [(fname f, v)]
      else inl (InvalidType (fname f) (ftype f) v)
  end.

Fixpoint parse_fields (props : list (string * value)) (s : zschema)
  : list issue * list (string * value) :=
  match s with
  | [] => ([], [])
  | f :: rest =>
      let (issues, out) := parse_fields props rest in
      match parse_field props f with
      | inl i => (i :: issues, out)
      | inr kv => (issues, (kv ++ out)%list)
      end
  end.

(** Modelled from the spec: zod's [safeParse], not in the repository.
    [inr data] is [{success: true, data}], [inl issues] is
    [{success: false, error}]. *)
Definition safeParse (s : zschema) (args : value) : list issue + value :=
  match args with
  | VObj props =>
      match parse_fields props s with
      | ([], out) => inr (VObj out)
      | (issues, _) => inl issues
      end
  | _ => inl [ExpectedObject args]
  end.

(** ** The world and the gateway *)

(** One outbound [fetch]: POST to [url] with the bearer header and
    [JSON.stringify(body)] as the request body. *)
Record http_request : Type := mkRequest {
  url : string;
  authorization : string;
  body : value
}.

(** What [fetch] resolved to: the status line and the outcome of
    [response.json()]. *)
Record response : Type := mkResponse {
  status : Z;
  statusText : string;
  json : exn + value
}.

(** [response.ok] *)
Definition ok (r : response) : bool :=
  (200 <=? status r)%Z && (status r <=? 299)%Z.

Record world : Type := mkWorld {
  (** [process.env.REFERENCIME_API_KEY] *)
  REFERENCIME_API_KEY : option string;
  (** the backend, as [fetch] sees it; [inl] is a rejected fetch *)
  fetch : http_request -> exn + response
}.

(** The result of a returned report: one text item and the error flag. *)
Record report : Type := mkReport {
  text : string;
  isError : bool
}.

Definition getApiKey (w : world) : exn + string :=
  match REFERENCIME_API_KEY w with
  | Some apiKey =>
      if apiKey =? "" then
        inl (Error "REFERENCIME_API_KEY non configuré. Ajoutez votre clé API dans la configuration Claude Desktop.")
      else ret apiKey
  | None =>
      inl (Error "REFERENCIME_API_KEY non configuré. Ajoutez votre clé API dans la configuration Claude Desktop.")
  end.

Definition baseURL : string := "https://referencime.fr/wp-json/easy-links/v1".

Section Gateway.
Context {rt : Runtime}.

(** The tool-to-endpoint switch of the server variant at hand. *)
Variable endpoint_of : string -> option string.

(** [callReferencimeAPI(toolName, args)]: the result, and the HTTP requests
    issued on the way. *)
Definition callReferencimeAPI (w : world) (toolName : string) (args : value)
  : (exn + value) * list http_request :=
  match getApiKey w with
  | inl e => (inl e, [])
  | inr apiKey =>
      match endpoint_of toolName with
      | None => (inl (Error ("Outil inconnu: " ++ toolName)), [])
      | Some endpoint =>
          let request :=
            mkRequest (baseURL ++ endpoint) ("Bearer " ++ apiKey) args in
          match fetch w request with
          | inl e => (inl e, [request])
          | inr response =>
              if negb (ok response) then
                (inl (Error ("Erreur API WordPress: " ++
                             string_of_Z (status response) ++ " " ++
                             statusText response)),
                 [request])
              else
                match json response with
                | inl e => (inl e, [request])
                | inr result =>
                    match get result "success" with
                    | inl e => (inl e, [request])
                    | inr success =>
                        if negb (truthy success) then
                          match get result "message" with
                          | inl e => (inl e, [request])
                          | inr m =>
                              (inl (Error ("Erreur dans la réponse API: " ++
                                           to_string (js_or m (VStr "Erreur inconnue")))),
                               [request])
                          end
                        else
                          match get result "data" with
                          | inl e => (inl e, [request])
                          | inr data => (inr data, [request])
                          end
                    end
                end
          end
      end
  end.

End Gateway.

Section Dispatch.
Context {rt : Runtime}.

(** The [catch] of the tool-call handler. *)
Definition error_report (error : exn) : report :=
  let errorMessage := message error in
  mkReport ("❌ **Erreur**: " ++ errorMessage) true.

(** A returned [{content: [{type: "text", text}]}]. *)
Definition text_report (t : string) : report := mkReport t false.

(** [try { ... } catch (error) { ... }] around the handler's body. *)
Definition try_catch (r : (exn + string) * list http_request)
  : report * list http_request :=
  match r with
  | (inr t, log) => (text_report t, log)
  | (inl e, log) => (error_report e, log)
  end.

(** One [case] of the handler's switch: validate, call the gateway, format. *)
Definition run_tool
  (call : string -> value -> (exn + value) * list http_request)
  (name : string) (schema : zschema)
  (format : value -> value -> exn + string) (args : value)
  : (exn + string) * list http_request :=
  match safeParse schema args with
  | inl issues =>
      (inl (Error ("Arguments invalides pour " ++ name ++ ": " ++
                   zod_message issues)), [])
  | inr data =>
      match call name data with
      | (inl e, log) => (inl e, log)
      | (inr result, log) => (format data result, log)
      end
  end.

End Dispatch.

(** ** A plain object used as a map: [const byCategory = {}]

    The own properties are kept in creation order.  A read that finds no own
    property goes to [Object.prototype], whose members are all truthy and
    none of which is an array.  [Object.entries] lists the own properties
    whose key is an array index first, in ascending numeric order, and then
    the others in creation order. *)

Definition bag : Type := list (string * list value).

Inductive slot : Type :=
| Own (items : list value)
| Inherited
| Missing.

Definition object_prototype_keys : list string :=
  ["constructor"; "__defineGetter__"; "__defineSetter__"; "hasOwnProperty";
   "__lookupGetter__"; "__lookupSetter__"; "isPrototypeOf";
   "propertyIsEnumerable"; "toString"; "valueOf"; "__proto__";
   "toLocaleString"].

Fixpoint own (o : bag) (key : string) : option (list value) :=
  match o with
  | [] => None
  | (k, items) :: rest => if k =? key then Some items else own rest key
  end.

(** [o[key]] *)
Definition read (o : bag) (key : string) : slot :=
  match own o key with
  | Some items => Own items
  | None =>
      if existsb (String.eqb key) object_prototype_keys then Inherited
      else Missing
  end.

(** [o[key] = items]: an existing own property keeps its place, a new one
    goes last. *)
Fixpoint write (o : bag) (key : string) (items : list value) : bag :=
  match o with
  | [] => [(key, items)]
  | (k, old) :: rest =>
      if k =? key then (k, items) :: rest else (k, old) :: write rest key items
  end.

(** The array index a property key denotes, if any: the canonical decimal
    numeral of an integer below 2^32 - 1. *)
Definition array_index (key : string) : option N :=
  match NilZero.uint_of_string key with
  | Some u =>
      let n := N.of_uint u in
      if (NilZero.string_of_uint (N.to_uint n) =? key) && (n <? 4294967295)%N
      then Some n
      else None
  | None => None
  end.

Fixpoint insert_by_index {A : Type} (x : N * A) (l : list (N * A)) : list (N * A) :=
  match l with
  | [] => [x]
  | y :: rest =>
      if (fst x <=? fst y)%N then x :: y :: rest
      else y :: insert_by_index x rest
  end.

Fixpoint sort_by_index {A : Type} (l : list (N * A)) : list (N * A) :=
  match l with
  | [] => []
  | x :: rest => insert_by_index x (sort_by_index rest)
  end.

Fixpoint indexed (o : bag) : list (N * (string * list value)) :=
  match o with
  | [] => []
  | e :: rest =>
      match array_index (fst e) with
      | Some n => (n, e) :: indexed rest
      | None => indexed rest
      end
  end.

Definition named (o : bag) : bag :=
  filter (fun e => match array_index (fst e) with Some _ => false | None => true end) o.

(** [Object.entries(o)] *)
Definition Object_entries (o : bag) : bag :=
  (map snd (sort_by_index (indexed o)) ++ named o)%list.

(** The newline of a template literal. *)
Definition nl : string := String (ascii_of_nat 10) "".

(** The two servers of the repository. *)
Inductive server : Type :=
| Server_2_0_0   (* five tools, "version refactorisée" *)
| Server_1_1_3.  (* seven tools *)

Fixpoint filterM {A : Type} (f : A -> exn + bool) (l : list A) : exn + list A :=
  match l with
  | [] => ret []
  | a :: rest =>
      let* keep := f a in
      let* kept := filterM f rest in
      ret (if keep then a :: kept else kept)
  end.

Fixpoint foldM {A B : Type} (f : B -> A -> exn + B) (l : list A) (b : B) : exn + B :=
  match l with
  | [] => ret b
  | a :: rest =>
      let* b' := f b a in
      foldM f rest b'
  end.

Section ListKeywordsByWebsite.
Context {rt : Runtime}.

(** The body of [result.keywords.forEach(k => { ... })]. *)
Definition group_keyword (byCategory : bag) (k : value) : exn + bag :=
  let* category_name := get k "category_name" in
  let catName := to_string (js_or category_name (VStr "Non catégorisé")) in
  let byCategory :=
    match read byCategory catName with
    | Missing => write byCategory catName []
    | _ => byCategory
    end in
  match read byCategory catName with
  | Own items => ret (write byCategory catName (items ++ [k])%list)
  | _ => inl (TypeError (NotAFunction "byCategory[catName].push"))
  end.

(** [byCategory] after the [forEach]. *)
Definition group_by_category (result : value) : exn + bag :=
  let* keywords := get result "keywords" in
  let* ks := array_method keywords "forEach" in
  foldM group_keyword ks [].

(** One line of a keyword of [list_keywords_by_website]. *)
Definition website_keyword_line (result k : value) : exn + string :=
  let* keyword := get k "keyword" in
  let line := "   • " ++ to_string keyword in
  let* include_metrics := get result "include_metrics" in
  let* shown :=
    if truthy include_metrics then get k "search_volume"
    else ret include_metrics in
  if truthy shown then
    let* search_volume := get k "search_volume" in
    let* volume := call_toLocaleString search_volume in
    ret (line ++ " (Vol: " ++ volume ++ ")")
  else ret line.

(** [keywordsText]: the lines of the first 20 keywords of a group. *)
Definition website_keywordsText (result : value) (keywords : list value)
  : exn + list string :=
  mapM (website_keyword_line result) (slice0 20 keywords).

(** [truncated] *)
Definition website_truncated (keywords : list value) : string :=
  if (20 <? List.length keywords)%nat then
    nl ++ "   ... et " ++ string_of_nat (List.length keywords - 20) ++
    " autres mots-clés"
  else "".

(** The text of one entry of [Object.entries(byCategory)]. *)
Definition website_group_text (result : value) (entry : string * list value)
  : exn + string :=
  let (catName, keywords) := entry in
  let* lines := website_keywordsText result keywords in
  ret (nl ++ "**" ++ catName ++ "** (" ++ string_of_nat (List.length keywords) ++
       " mots-clés):" ++ nl ++ join nl lines ++ website_truncated keywords).

(** [keywordsList] *)
Definition website_keywordsList (result : value) : exn + string :=
  let* byCategory := group_by_category result in
  let* groups := mapM (website_group_text result) (Object_entries byCategory) in
  ret (join nl groups).

(** The report text of [list_keywords_by_website]. *)
Definition format_list_keywords_by_website (data result : value) : exn + string :=
  let* keywordsList := website_keywordsList result in
  let* website_id := get result "website_id" in
  let* keywords_count := get result "keywords_count" in
  let* include_metrics := get result "include_metrics" in
  ret ("🔤 **MOTS-CLÉS - SITE #" ++ to_string website_id ++ "**" ++ nl ++ nl ++
       "📊 **Total mots-clés :** " ++ to_string keywords_count ++ nl ++
       "📈 **Volumes de recherche :** " ++
       (if truthy include_metrics then "Inclus" else "Non inclus") ++ nl ++
       keywordsList ++ nl ++ nl ++
       "💡 **Astuce :** Utilisez list_keywords_by_categories_by_website pour des métriques de performance détaillées.").

End ListKeywordsByWebsite.

(** ** Keywords by categories: [list_keywords_by_categories_by_website] (2.0.0)
    and [get_keywords_by_categories] (1.1.3)

    The two formatters differ in their literals only; [sv] selects them. *)

(** The accumulator of [reduce((sum, pos) => sum + pos, 0)]: a number, or a
    string once [+] has concatenated. *)
Inductive prim : Type :=
| PNum (n : num)
| PStr (s : string).

Section KeywordsByCategories.
Context {rt : Runtime}.
Variable sv : server.

Definition prim_toString (p : prim) : string :=
  match p with
  | PNum n => num_toString n
  | PStr s => s
  end.

Definition prim_ToNumber (p : prim) : num :=
  match p with
  | PNum n => n
  | PStr s => StringToNumber s
  end.

(** [sum + pos]: concatenation as soon as one side is a string (an array or
    an object converts to one), addition of numbers otherwise. *)
Definition js_add (sum : prim) (pos : value) : prim :=
  match sum, pos with
  | PNum a, (VUndefined | VNull | VBool _ | VNum _) =>
      match a, ToNumber pos with
      | Some x, Some y => PNum (Some (x + y)%Q)
      | _, _ => PNum None
      end
  | _, _ => PStr (prim_toString sum ++ to_string pos)
  end.

(** [sum / n] for a count [n] *)
Definition js_div (sum : prim) (n : nat) : num :=
  match prim_ToNumber sum, n with
  | _, O => None
  | Some x, _ => Some (x / inject_Z (Z.of_nat n))%Q
  | None, _ => None
  end.

(** The title in [categoryHeader]. *)
Definition category_title (category : value) : exn + string :=
  let* category_name := get category "category_name" in
  match sv with
  | Server_2_0_0 => call_toUpperCase (js_or category_name (VStr "Sans nom"))
  | Server_1_1_3 => call_toUpperCase category_name
  end.

Definition categoryHeader (category : value) : exn + string :=
  let* title := category_title category in
  let* keywords_count := get category "keywords_count" in
  ret (nl ++ "🗂️ **" ++ title ++ "** (" ++ to_string keywords_count ++
       " mots-clés)" ++ nl ++ repeat_string "─" 50 ++ nl).

Definition position_label : string :=
  match sv with
  | Server_2_0_0 => " | #"
  | Server_1_1_3 => " | Pos: #"
  end.

(** The pieces appended to a keyword's [line], in order: the bullet with the
    keyword, then the optional fields. *)
Definition keyword_fields (result keyword : value) : exn + list string :=
  let* kw := get keyword "keyword" in
  let bullet := "   • **" ++ to_string kw ++ "**" in
  let* include_performance := get result "include_performance" in
  let* shown :=
    if truthy include_performance then get keyword "performance_metrics"
    else ret include_performance in
  let* performance :=
    if truthy shown then
      let* perf := get keyword "performance_metrics" in
      let* has_data := get perf "has_data" in
      if truthy has_data then
        let* position := get perf "position" in
        let* clicks := get perf "clicks" in
        let* impressions := get perf "impressions" in
        let* ctr := get perf "ctr" in
        ret ((position_label ++ to_string (js_or position (VStr "N/A")) ++
              " | " ++ to_string clicks ++ " clics | " ++
              to_string impressions ++ " impr") ::
             (if js_gt ctr 0 then
                [" | CTR: " ++ num_toFixed 1 (js_mul ctr 100) ++ "%"]
              else []))
      else ret [" | Pas de données GSC"]
    else ret [] in
  let* search_volume := get keyword "search_volume" in
  let* volume :=
    if js_gt search_volume 0 then
      let* v := call_toLocaleString search_volume in
      ret [" | Vol: " ++ v]
    else ret [] in
  ret (bullet :: performance ++ volume)%list.

(** The line of a keyword. *)
Definition keyword_line (result keyword : value) : exn + string :=
  let* fields := keyword_fields result keyword in
  ret (String.concat "" fields).

(** [keywordsText]: the lines of the first 10 keywords of a category. *)
Definition keywordsText (result category : value) : exn + list string :=
  let* keywords := get category "keywords" in
  let* ks := slice_map_receiver keywords in
  mapM (keyword_line result) (slice0 10 ks).

Definition more_label : string :=
  match sv with
  | Server_2_0_0 => " autres"
  | Server_1_1_3 => " autres mots-clés"
  end.

(** [truncated] (2.0.0), [truncatedNote] (1.1.3) *)
Definition truncated (category : value) : exn + string :=
  let* keywords_count := get category "keywords_count" in
  if js_gt keywords_count 10 then
    ret (nl ++ "   ... et " ++ num_toString (js_sub keywords_count 10) ++ more_label)
  else ret "".

Definition no_keyword_line : string :=
  match sv with
  | Server_2_0_0 => "   • Aucun mot-clé" ++ nl
  | Server_1_1_3 => "   • Aucun mot-clé dans cette catégorie" ++ nl
  end.

(** The text of one category of [result.categories.map(category => ...)]. *)
Definition category_text (result category : value) : exn + string :=
  let* header := categoryHeader category in
  let* keywords_count := get category "keywords_count" in
  if js_strict_eq_num keywords_count 0 then ret (header ++ no_keyword_line)
  else
    let* lines := keywordsText result category in
    let* more := truncated category in
    ret (header ++ join nl lines ++ more ++ nl).

(** The texts of the categories, in the order [map] produced them;
    [categoriesText] is their [join('')]. *)
Definition category_texts (result : value) : exn + list string :=
  let* categories := get result "categories" in
  let* cats := array_method categories "map" in
  mapM (category_text result) cats.

Definition categoriesText (result : value) : exn + string :=
  let* texts := category_texts result in
  ret (join "" texts).

(** [k => k.performance_metrics?.position > 0] *)
Definition has_position (k : value) : exn + bool :=
  let* performance_metrics := get k "performance_metrics" in
  ret (js_gt (get_opt performance_metrics "position") 0).

(** [result.categories.flatMap(cat => cat.keywords.filter(...))] *)
Definition keywords_with_position (result : value) : exn + list value :=
  let* categories := get result "categories" in
  let* cats := array_method categories "flatMap" in
  let* found :=
    mapM (fun cat =>
            let* keywords := get cat "keywords" in
            let* ks := array_method keywords "filter" in
            filterM has_position ks) cats in
  ret (concat found).

Definition totalWithPosition (result : value) : exn + nat :=
  let* found := keywords_with_position result in
  ret (List.length found).

(** [k => k.performance_metrics.position] *)
Definition position_of (k : value) : exn + value :=
  let* performance_metrics := get k "performance_metrics" in
  get performance_metrics "position".

(** [avgPosition]: [None] is [null]. *)
Definition avgPosition (result : value) : exn + option num :=
  let* total := totalWithPosition result in
  if (0 <? total)%nat then
    let* found := keywords_with_position result in
    let* positions := mapM position_of found in
    ret (Some (js_div (fold_left js_add positions (PNum (Some 0%Q))) total))
  else ret None.

(** [avgPosition ? `• Position moyenne : #${avgPosition.toFixed(1)}\n` : ''] *)
Definition avgPosition_line (avg : option num) : string :=
  match avg with
  | Some (Some q) =>
      if Qeq_bool q 0 then ""
      else "• Position moyenne : #" ++ toFixed 1 q ++ nl
  | _ => ""
  end.

(** The report when [result.has_gsc_data] is falsy. *)
Definition no_gsc_data_text (result : value) : exn + string :=
  let* website_id := get result "website_id" in
  let* period_days := get result "period_days" in
  let* summary := get result "summary" in
  let* total_keywords := get summary "total_keywords" in
  let* total_categories := get summary "total_categories" in
  let* categories := get result "categories" in
  let* cats := array_method categories "map" in
  let* structure :=
    mapM (fun cat =>
            let* category_name := get cat "category_name" in
            let* keywords_count := get cat "keywords_count" in
            ret ("• **" ++ to_string category_name ++ "**: " ++
                 to_string keywords_count ++ " mots-clés")) cats in
  ret ("📂 **MOTS-CLÉS PAR CATÉGORIES - SITE #" ++ to_string website_id ++ "**" ++ nl ++ nl ++
       "⚠️ **Données GSC non disponibles**" ++ nl ++ nl ++
       (match sv with
        | Server_2_0_0 => "📊 **Période :** "
        | Server_1_1_3 => "📊 **Période analysée :** "
        end) ++ to_string period_days ++ " jours" ++ nl ++
       "📈 **Total mots-clés :** " ++ to_string total_keywords ++ nl ++
       "🗂️ **Catégories :** " ++ to_string total_categories ++ nl ++ nl ++
       (match sv with
        | Server_2_0_0 => "💡 **Cause :** Pas de propriété Google Search Console associée."
        | Server_1_1_3 => "💡 **Cause :** Pas de propriété Google Search Console associée au site."
        end) ++ nl ++ nl ++
       (match sv with
        | Server_2_0_0 => "📋 **Structure :**"
        | Server_1_1_3 => "📋 **Structure disponible :**"
        end) ++ nl ++
       join nl structure).

(** The report text of the keywords-by-categories tool of server [sv]. *)
Definition format_keywords_by_categories (data result : value) : exn + string :=
  let* has_gsc_data := get result "has_gsc_data" in
  if negb (truthy has_gsc_data) then no_gsc_data_text result
  else
    let* categoriesText := categoriesText result in
    let* total := totalWithPosition result in
    let* avg := avgPosition result in
    let* website_id := get result "website_id" in
    let* period_days := get result "period_days" in
    let* include_performance := get result "include_performance" in
    let* summary := get result "summary" in
    let* total_keywords := get summary "total_keywords" in
    let* total_keywords_text := call_toLocaleString total_keywords in
    let* total_categories := get summary "total_categories" in
    let* uncategorized_keywords := get summary "uncategorized_keywords" in
    let* last_updated := get result "last_updated" in
    ret ("📂 **MOTS-CLÉS PAR CATÉGORIES - SITE #" ++ to_string website_id ++ "**" ++ nl ++ nl ++
         (match sv with
          | Server_2_0_0 => "📅 **Période :** "
          | Server_1_1_3 => "📅 **Période analysée :** "
          end) ++ to_string period_days ++ " jours" ++ nl ++
         "📊 **Métriques GSC :** " ++
         (if truthy include_performance then "Incluses" else "Désactivées") ++ nl ++ nl ++
         (match sv with
          | Server_2_0_0 => "📈 **Résumé :**"
          | Server_1_1_3 => "📈 **Résumé global :**"
          end) ++ nl ++
         "• Total mots-clés : " ++ total_keywords_text ++ nl ++
         "• Catégories : " ++ to_string total_categories ++ nl ++
         "• Non catégorisés : " ++ to_string uncategorized_keywords ++ nl ++
         "• Avec position GSC : " ++ string_of_nat total ++ nl ++
         avgPosition_line avg ++
         nl ++ categoriesText ++ nl ++
         (match sv with
          | Server_2_0_0 => "📅 **MAJ :** "
          | Server_1_1_3 => "📅 **Dernière mise à jour :** "
          end) ++ toLocaleString_fr last_updated ++ nl ++ nl ++
         (match sv with
          | Server_2_0_0 => "💡 **Astuce :** Identifiez vos thématiques SEO les plus performantes !"
          | Server_1_1_3 => "💡 **Astuce :** Utilisez ces données pour identifier vos thématiques SEO les plus performantes !"
          end)).

End KeywordsByCategories.

(** ** The other formatters *)

(** The double quote of a template literal. *)
Definition dq : string := String (ascii_of_nat 34) "".

Section OtherFormatters.
Context {rt : Runtime}.

(** [Array.prototype.join] on values: undefined and null give the empty
    string. *)
Definition join_values (sep : string) (l : list value) : string :=
  join sep (map (fun x => if is_nullish x then "" else to_string x) l).

(** [typeof v === 'object'] *)
Definition typeof_object (v : value) : bool :=
  match v with
  | VNull | VArr _ | VObj _ => true
  | _ => false
  end.

(** [v.length > 0] for a truthy [v] *)
Definition length_gt_0 (v : value) : bool :=
  match v with
  | VArr items => negb (Nat.eqb (List.length items) 0)
  | VStr s => negb (s =? "")
  | VObj props => js_gt (lookup "length" props) 0
  | _ => false
  end.

(** [Math.abs(v)] *)
Definition Math_abs (v : value) : num :=
  match ToNumber v with
  | Some x => Some (Qabs x)
  | None => None
  end.

(** [mapM] with the index of each element, from [i]. *)
Fixpoint mapM_index {A B : Type} (f : A -> nat -> exn + B) (l : list A) (i : nat)
  : exn + list B :=
  match l with
  | [] => ret []
  | a :: rest =>
      let* b := f a i in
      let* bs := mapM_index f rest (S i) in
      ret (b :: bs)
  end.

(** *** 2.0.0: list_websites_by_user; 1.1.3: list_user_websites *)

Definition website_line (sv : server) (w : value) : exn + string :=
  let* domain := get w "domain" in
  let* id := get w "id" in
  let* is_favorite := get w "is_favorite" in
  let line := "• **" ++ to_string domain ++ "** (ID: " ++ to_string id ++ ")" ++
              (if truthy is_favorite then " ⭐" else "") in
  match sv with
  | Server_2_0_0 =>
      let* created_date := get w "created_date" in
      ret (line ++ " - Créé le " ++ toLocaleDateString_fr created_date)
  | Server_1_1_3 => ret line
  end.

Definition format_list_websites (sv : server) (data result : value) : exn + string :=
  let* websites := get result "websites" in
  let* ws := array_method websites "map" in
  let* lines := mapM (website_line sv) ws in
  let websitesList := join nl lines in
  let* user_id := get result "user_id" in
  let* websites_count := get result "websites_count" in
  ret ("🌐 **VOS SITES WEB REFERENCIME**" ++ nl ++ nl ++
       "👤 **Utilisateur ID :** " ++ to_string user_id ++ nl ++
       "📊 **Nombre de sites :** " ++ to_string websites_count ++ nl ++ nl ++
       "📋 **Liste des sites :**" ++ nl ++ websitesList ++ nl ++ nl ++
       "💡 **Utilisation :** Utilisez l'ID du site dans les autres outils d'analyse SEO.").

(** *** 2.0.0: list_categories_by_website *)

Definition format_list_categories_by_website (data result : value) : exn + string :=
  let* categories := get result "categories" in
  let* cs := array_method categories "map" in
  let* lines :=
    mapM (fun c =>
            let* name := get c "name" in
            let* keywords_count := get c "keywords_count" in
            ret ("• **" ++ to_string name ++ "** (" ++ to_string keywords_count ++
                 " mots-clés)")) cs in
  let categoriesList := join nl lines in
  let* website_id := get result "website_id" in
  let* categories_count := get result "categories_count" in
  ret ("🗂️ **CATÉGORIES DE MOTS-CLÉS - SITE #" ++ to_string website_id ++ "**" ++ nl ++ nl ++
       "📊 **Nombre de catégories :** " ++ to_string categories_count ++ nl ++ nl ++
       "📋 **Liste des catégories :**" ++ nl ++ categoriesList ++ nl ++ nl ++
       "💡 **Organisation :** Catégorisez vos mots-clés par thème pour une meilleure stratégie SEO.").

(** *** get_website_performance_summary: shared pieces *)

(** The five lines of the position distribution. *)
Definition position_distribution_text (result : value) : exn + string :=
  let* performance_changes := get result "performance_changes" in
  let* d := get performance_changes "position_distribution" in
  let* top3 := get d "top3" in
  let* top10 := get d "top10" in
  let* top20 := get d "top20" in
  let* top50 := get d "top50" in
  let* top100 := get d "top100" in
  ret ("📈 **Distribution des positions :**" ++ nl ++
       "• Top 3 : " ++ to_string top3 ++ " mots-clés" ++ nl ++
       "• Top 10 : " ++ to_string top10 ++ " mots-clés" ++ nl ++
       "• Top 20 : " ++ to_string top20 ++ " mots-clés" ++ nl ++
       "• Top 50 : " ++ to_string top50 ++ " mots-clés" ++ nl ++
       "• Top 100 : " ++ to_string top100 ++ " mots-clés" ++ nl ++ nl).

(** [result.top_performing_keywords?.map(line).join('\n') || fallback] *)
Definition topKeywords (line : value -> exn + string) (fallback : string)
  (result : value) : exn + string :=
  let* top := get result "top_performing_keywords" in
  if is_nullish top then ret fallback
  else
    let* ks := array_method top "map" in
    let* lines := mapM line ks in
    let joined := join nl lines in
    ret (if joined =? "" then fallback else joined).

(** *** 2.0.0: get_website_performance_summary *)

Definition summary20_no_data (result : value) : exn + string :=
  let* website_id := get result "website_id" in
  let* period_days := get result "period_days" in
  let* period := get result "period" in
  let* overall_metrics := get result "overall_metrics" in
  let* total_keywords := get overall_metrics "total_keywords" in
  ret ("🌐 **TABLEAU DE BORD SEO - SITE #" ++ to_string website_id ++ "**" ++ nl ++ nl ++
       "⚠️ **Aucune donnée disponible**" ++ nl ++ nl ++
       "📊 **Période :** " ++
       to_string (js_or (js_or period_days (get_opt period "days")) (VStr "N/A")) ++
       " jours" ++ nl ++
       "📈 **Mots-clés :** " ++ to_string total_keywords ++ nl ++ nl ++
       "💡 **Cause :** Pas de propriété GSC ou données non disponibles.").

Definition summary20_top_line (k : value) : exn + string :=
  let* keyword := get k "keyword" in
  let* position := get k "position" in
  let* shown := call_toFixed 1 position in
  let* clicks := get k "clicks" in
  ret ("• " ++ to_string keyword ++ " (#" ++ shown ++ ", " ++ to_string clicks ++ " clics)").

Definition summary20_dateInfo (result : value) : exn + string :=
  let* period := get result "period" in
  if truthy period then
    let* start_date := get period "start_date" in
    let* end_date := get period "end_date" in
    let* days := get period "days" in
    let dateInfo := "📅 **Période :** du " ++ to_string start_date ++ " au " ++
                    to_string end_date ++ " (" ++ to_string days ++ " jours)" in
    let* compare_period := get result "compare_period" in
    if truthy compare_period then
      let* cstart := get compare_period "start_date" in
      let* cend := get compare_period "end_date" in
      ret (dateInfo ++ nl ++ "📅 **Comparaison :** du " ++ to_string cstart ++
           " au " ++ to_string cend)
    else ret dateInfo
  else
    let* period_days := get result "period_days" in
    ret ("📅 **Période :** " ++ to_string period_days ++ " jours").

(** [` (${sign}${evol.toFixed(1)}%)`] when [evolution_percent !== null] *)
Definition evolution_percent_text (metric : value) : exn + string :=
  let* evol := get metric "evolution_percent" in
  match evol with
  | VNull => ret ""
  | _ =>
      let sign := if js_ge evol 0 then "+" else "" in
      let* shown := call_toFixed 1 evol in
      ret (" (" ++ sign ++ shown ++ "%)")
  end.

(** The text one category adds to [categoriesSection]. *)
Definition summary20_category (cat : value) (index : nat) : exn + string :=
  let* category_name := get cat "category_name" in
  let* keywords_count := get cat "keywords_count" in
  let head := "**" ++ string_of_nat (index + 1) ++ ". " ++ to_string category_name ++
              "** (" ++ to_string keywords_count ++ " mots-clés)" ++ nl in
  let* metrics := get cat "metrics" in
  let* position := get metrics "position" in
  let* current := get position "current" in
  let average := "   • Position moyenne : " ++
                 (if truthy current then "#" ++ to_string current else "N/A") in
  let* compare := get position "compare" in
  let* evolution := get position "evolution" in
  let evolution_note :=
    if truthy compare && truthy evolution then
      " (" ++
      (if js_gt evolution 0 then "📈 +" ++ to_string evolution
       else if js_lt evolution 0 then "📉 " ++ to_string evolution
       else "➡️ =") ++
      " vs période précédente)"
    else "" in
  let* clicks := get metrics "clicks" in
  let* clicks_current := get clicks "current" in
  let* clicks_evolution := evolution_percent_text clicks in
  let* impressions := get metrics "impressions" in
  let* impressions_current := get impressions "current" in
  let* impressions_shown := call_toLocaleString impressions_current in
  let* impressions_evolution := evolution_percent_text impressions in
  let* top_keywords := get cat "top_keywords" in
  let* top :=
    if truthy top_keywords && length_gt_0 top_keywords then
      let* ks := slice_map_receiver top_keywords in
      let* names := mapM (fun k => get k "keyword") (slice0 3 ks) in
      ret (nl ++ "   🏆 Top mots-clés : " ++ join_values ", " names)
    else ret "" in
  ret (head ++ average ++ evolution_note ++
       nl ++ "   • Clics : " ++ to_string clicks_current ++ clicks_evolution ++
       nl ++ "   • Impressions : " ++ impressions_shown ++ impressions_evolution ++
       top ++ nl ++ nl).

Definition summary20_categoriesSection (result : value) : exn + string :=
  let* categories := get result "categories" in
  if truthy categories && length_gt_0 categories then
    let* cats := array_method categories "forEach" in
    let* texts := mapM_index summary20_category cats 0 in
    ret (nl ++ nl ++ "📂 **PERFORMANCES PAR CATÉGORIE :**" ++ nl ++ nl ++ join "" texts)
  else ret "".

(** [formatMetric(metric)], as a template literal prints it *)
Definition formatMetric (metric : value) : exn + string :=
  match metric with
  | VNum _ => call_toLocaleString metric
  | VNull | VArr _ | VObj _ =>
      let* current := get metric "current" in
      match current with
      | VUndefined => ret (to_string metric)
      | _ =>
          let* shown := call_toLocaleString current in
          let* evolution_text := get metric "evolution_text" in
          ret (if truthy evolution_text
               then shown ++ " (" ++ to_string evolution_text ++ ")"
               else shown)
      end
  | _ => ret (to_string metric)
  end.

(** [' (' + m.evolution_text + ')'] when it is truthy *)
Definition evolution_text_note (m : value) : exn + string :=
  let* evolution_text := get m "evolution_text" in
  ret (if truthy evolution_text then " (" ++ to_string evolution_text ++ ")" else "").

Definition format_summary_2_0_0 (data result : value) : exn + string :=
  let* has_data := get result "has_data" in
  if negb (truthy has_data) then summary20_no_data result
  else
    let* top := topKeywords summary20_top_line "Aucun" result in
    let* dateInfo := summary20_dateInfo result in
    let* categoriesSection := summary20_categoriesSection result in
    let* website_id := get result "website_id" in
    let* overall_metrics := get result "overall_metrics" in
    let* total_keywords := get overall_metrics "total_keywords" in
    let* total_clicks := get overall_metrics "total_clicks" in
    let* clicks := formatMetric total_clicks in
    let* total_impressions := get overall_metrics "total_impressions" in
    let* impressions := formatMetric total_impressions in
    let* average_position := get overall_metrics "average_position" in
    let* position :=
      if truthy average_position then
        if typeof_object average_position then
          let* current := get average_position "current" in
          let* note := evolution_text_note average_position in
          ret ("#" ++ to_string current ++ note)
        else ret ("#" ++ to_string average_position)
      else ret "N/A" in
    let* average_ctr := get overall_metrics "average_ctr" in
    let* ctr :=
      if truthy average_ctr then
        if typeof_object average_ctr then
          let* current := get average_ctr "current" in
          let* note := evolution_text_note average_ctr in
          ret (num_toFixed 2 (js_mul current 100) ++ "%" ++ note)
        else ret (num_toFixed 2 (js_mul average_ctr 100) ++ "%")
      else ret "N/A" in
    let* distribution := position_distribution_text result in
    ret ("🌐 **TABLEAU DE BORD SEO - SITE #" ++ to_string website_id ++ "**" ++ nl ++ nl ++
         dateInfo ++ nl ++ nl ++
         "📊 **Métriques globales :**" ++ nl ++
         "• Mots-clés suivis : " ++ to_string total_keywords ++ nl ++
         "• Total clics : " ++ clicks ++ nl ++
         "• Total impressions : " ++ impressions ++ nl ++
         "• Position moyenne : " ++ position ++ nl ++
         "• CTR moyen : " ++ ctr ++ nl ++ nl ++
         distribution ++
         "🏆 **Top performeurs :**" ++ nl ++ top ++
         categoriesSection).

End OtherFormatters.

Section Formatters_1_1_3.
Context {rt : Runtime}.

(** [`${v > 0 ? '+' : ''}${v}`] *)
Definition signed (v : value) : string :=
  (if js_gt v 0 then "+" else "") ++ to_string v.

(** *** analyze_keyword_performance *)

Definition format_analyze_keyword_performance (data result : value) : exn + string :=
  let* keyword := get data "keyword" in
  let* title := call_toUpperCase keyword in
  let* current_position := get result "current_position" in
  let* search_volume := get result "search_volume" in
  let* volume := call_toLocaleString search_volume in
  let* difficulty_score := get result "difficulty_score" in
  let* estimated_traffic := get result "estimated_traffic" in
  let* traffic := call_toLocaleString estimated_traffic in
  let* competition_level := get result "competition_level" in
  let* trend := get result "trend" in
  let* last_updated := get result "last_updated" in
  let* website_id := get result "website_id" in
  ret ("🔍 **ANALYSE COMPLÈTE DU MOT-CLÉ " ++ dq ++ title ++ dq ++ "**" ++ nl ++ nl ++
       "📊 **Métriques actuelles :**" ++ nl ++
       "• Position actuelle : #" ++ to_string current_position ++ nl ++
       "• Volume de recherche : " ++ volume ++ " recherches/mois" ++ nl ++
       "• Difficulté SEO : " ++ to_string difficulty_score ++ "/100" ++ nl ++
       "• Trafic estimé : " ++ traffic ++ " visites/mois" ++ nl ++
       "• Niveau de concurrence : " ++ to_string competition_level ++ nl ++
       "• Tendance : " ++ to_string trend ++ nl ++ nl ++
       "📅 **Dernière mise à jour :** " ++ toLocaleString_fr last_updated ++ nl ++
       "🌐 **Site web ID :** " ++ to_string website_id).

(** *** get_position_evolution *)

Definition format_get_position_evolution (data result : value) : exn + string :=
  let* historical_positions := get result "historical_positions" in
  let* ps := array_method historical_positions "map" in
  let* lines :=
    mapM (fun p =>
            let* date := get p "date" in
            let* position := get p "position" in
            let* clicks := get p "clicks" in
            let* impressions := get p "impressions" in
            ret (to_string date ++ ": Position #" ++ to_string position ++ " (" ++
                 to_string clicks ++ " clics, " ++ to_string impressions ++
                 " impressions)")) ps in
  let chartData := join nl lines in
  let* keyword := get data "keyword" in
  let* title := call_toUpperCase keyword in
  let* period := get result "period" in
  let* best_position := get result "best_position" in
  let* average_position := get result "average_position" in
  let* position_change := get result "position_change" in
  let* website_id := get result "website_id" in
  ret ("📈 **ÉVOLUTION DES POSITIONS - " ++ dq ++ title ++ dq ++ "**" ++ nl ++ nl ++
       "⏱️ **Période analysée :** " ++ to_string period ++ nl ++
       "📊 **Statistiques :**" ++ nl ++
       "• Meilleure position : #" ++ to_string best_position ++ nl ++
       "• Position moyenne : #" ++ to_string average_position ++ nl ++
       "• Évolution récente : " ++ signed position_change ++ " positions" ++ nl ++ nl ++
       "📅 **Historique détaillé :**" ++ nl ++ chartData ++ nl ++ nl ++
       "🌐 **Site web ID :** " ++ to_string website_id).

(** *** compare_keywords_performance *)

Definition comparison_line (k : value) : exn + string :=
  let* keyword := get k "keyword" in
  let* position := get k "position" in
  let* search_volume := get k "search_volume" in
  let* volume := call_toLocaleString search_volume in
  let* estimated_traffic := get k "estimated_traffic" in
  let* trend_direction := get k "trend_direction" in
  let* monthly_change := get k "monthly_change" in
  ret ("• **" ++ to_string keyword ++ "**: Position #" ++ to_string position ++
       " | Volume: " ++ volume ++ " | Trafic: " ++ to_string estimated_traffic ++
       " | Tendance: " ++ to_string trend_direction ++ " (" ++
       signed monthly_change ++ ")").

Definition format_compare_keywords_performance (data result : value) : exn + string :=
  let* keywords_analysis := get result "keywords_analysis" in
  let* ks := array_method keywords_analysis "map" in
  let* lines := mapM comparison_line ks in
  let comparison := join nl lines in
  let* total_analyzed := get result "total_analyzed" in
  let* best_performer := get result "best_performer" in
  let* recommendations := get result "recommendations" in
  let* rs := array_method recommendations "map" in
  let* comparison_date := get result "comparison_date" in
  let* website_id := get result "website_id" in
  ret ("⚖️ **COMPARAISON DE " ++ to_string total_analyzed ++ " MOTS-CLÉS**" ++ nl ++ nl ++
       "📊 **Analyse comparative :**" ++ nl ++ comparison ++ nl ++ nl ++
       "🏆 **Meilleur performer :** " ++ to_string best_performer ++ nl ++ nl ++
       "💡 **Recommandations :**" ++ nl ++
       join nl (map (fun r => "• " ++ to_string r) rs) ++ nl ++ nl ++
       "📅 **Date d'analyse :** " ++ toLocaleDateString_fr comparison_date ++ nl ++
       "🌐 **Site web ID :** " ++ to_string website_id).

(** *** 1.1.3: get_website_performance_summary *)

Definition summary11_no_data (result : value) : exn + string :=
  let* website_id := get result "website_id" in
  let* period_days := get result "period_days" in
  let* overall_metrics := get result "overall_metrics" in
  let* total_keywords := get overall_metrics "total_keywords" in
  ret ("🌐 **TABLEAU DE BORD SEO - SITE #" ++ to_string website_id ++ "**" ++ nl ++ nl ++
       "⚠️ **Aucune donnée disponible**" ++ nl ++ nl ++
       "📊 **Période analysée :** " ++ to_string period_days ++ " jours" ++ nl ++
       "📈 **Mots-clés dans la base :** " ++ to_string total_keywords ++ nl ++ nl ++
       "💡 **Cause possible :** Pas de propriété Google Search Console associée ou données GSC non disponibles pour cette période.").

Definition summary11_top_line (k : value) : exn + string :=
  let* keyword := get k "keyword" in
  let* position := get k "position" in
  let* clicks := get k "clicks" in
  ret ("• " ++ to_string keyword ++ " (#" ++ to_string position ++ ", " ++
       to_string clicks ++ " clics)").

Definition format_summary_1_1_3 (data result : value) : exn + string :=
  let* has_data := get result "has_data" in
  if negb (truthy has_data) then summary11_no_data result
  else
    let* top := topKeywords summary11_top_line "Aucun mot-clé avec des clics" result in
    let* period_days := get result "period_days" in
    let* start_date := get data "start_date" in
    let* end_date := get data "end_date" in
    let dateInfo :=
      if truthy start_date && truthy end_date then
        "📅 **Période analysée :** du " ++ to_string start_date ++ " au " ++
        to_string end_date ++ " (" ++ to_string period_days ++ " jours)"
      else "📅 **Période analysée :** " ++ to_string period_days ++ " jours" in
    let* website_id := get result "website_id" in
    let* overall_metrics := get result "overall_metrics" in
    let* total_keywords := get overall_metrics "total_keywords" in
    let* keywords := call_toLocaleString total_keywords in
    let* total_clicks := get overall_metrics "total_clicks" in
    let* clicks := call_toLocaleString total_clicks in
    let* total_impressions := get overall_metrics "total_impressions" in
    let* impressions := call_toLocaleString total_impressions in
    let* average_position := get overall_metrics "average_position" in
    let* average_ctr := get overall_metrics "average_ctr" in
    let* distribution := position_distribution_text result in
    ret ("🌐 **TABLEAU DE BORD SEO - SITE #" ++ to_string website_id ++ "**" ++ nl ++ nl ++
         dateInfo ++ nl ++ nl ++
         "📊 **Métriques globales :**" ++ nl ++
         "• Mots-clés suivis : " ++ keywords ++ nl ++
         "• Total des clics : " ++ clicks ++ nl ++
         "• Total des impressions : " ++ impressions ++ nl ++
         "• Position moyenne : " ++
         (if truthy average_position then "#" ++ to_string average_position
          else "Non disponible") ++ nl ++
         "• CTR moyen : " ++
         (if truthy average_ctr then num_toFixed 2 (js_mul average_ctr 100) ++ "%"
          else "Non disponible") ++ nl ++ nl ++
         distribution ++
         "🏆 **Mots-clés les plus performants :**" ++ nl ++ top).

(** *** detect_ranking_changes *)

Definition changes_no_data (result : value) : exn + string :=
  let* website_id := get result "website_id" in
  let* period_days := get result "period_days" in
  let* threshold := get result "threshold" in
  ret ("🔄 **DÉTECTION DE CHANGEMENTS SIGNIFICATIFS**" ++ nl ++ nl ++
       "⚠️ **Aucune donnée disponible**" ++ nl ++ nl ++
       "📊 **Site web ID :** " ++ to_string website_id ++ nl ++
       "📅 **Période :** " ++ to_string period_days ++ " jours" ++ nl ++
       "🎯 **Seuil :** ±" ++ to_string threshold ++ " positions" ++ nl ++ nl ++
       "💡 **Cause possible :** Pas de propriété Google Search Console associée ou données GSC insuffisantes.").

Definition change_line (c : value) : exn + string :=
  let* change_type := get c "change_type" in
  let* keyword := get c "keyword" in
  let* old_position := get c "old_position" in
  let* new_position := get c "new_position" in
  let* change := get c "change" in
  let changeText :=
    if js_strict_eq_str change_type "improvement" then
      "📈 **" ++ to_string keyword ++ "**: #" ++ to_string old_position ++ " → #" ++
      to_string new_position ++ " (" ++ num_toString (Math_abs change) ++
      " positions vers le haut)"
    else if js_strict_eq_str change_type "drop" then
      "📉 **" ++ to_string keyword ++ "**: #" ++ to_string old_position ++ " → #" ++
      to_string new_position ++ " (+" ++ to_string change ++ " positions vers le bas)"
    else if js_strict_eq_str change_type "new_entry" then
      "🆕 **" ++ to_string keyword ++ "**: Nouveau classement à la position #" ++
      to_string new_position
    else if js_strict_eq_str change_type "disappeared" then
      "❌ **" ++ to_string keyword ++
      "**: A disparu du classement (était à la position #" ++
      to_string old_position ++ ")"
    else "" in
  let* clicks := get c "clicks" in
  let* impressions := get c "impressions" in
  let changeText :=
    if js_gt clicks 0 || js_gt impressions 0 then
      changeText ++ " | " ++ to_string clicks ++ " clics, " ++
      to_string impressions ++ " impressions"
    else changeText in
  let* significance := get c "significance" in
  ret (if js_strict_eq_str significance "major"
       then "🚨 " ++ changeText ++ " **[CHANGEMENT MAJEUR]**"
       else changeText).

Definition format_detect_ranking_changes (data result : value) : exn + string :=
  let* has_data := get result "has_data" in
  if negb (truthy has_data) then changes_no_data result
  else
    let* significant_changes := get result "significant_changes" in
    let* cs := array_method significant_changes "map" in
    let* lines := mapM change_line cs in
    let changes := join nl lines in
    let* website_id := get result "website_id" in
    let* period_days := get result "period_days" in
    let* threshold := get result "threshold" in
    let* summary := get result "summary" in
    let* changes_detected := get summary "changes_detected" in
    let* improvements := get summary "improvements" in
    let* drops := get summary "drops" in
    let* major_changes := get summary "major_changes" in
    let* new_entries := get summary "new_entries" in
    let* disappeared := get summary "disappeared" in
    ret ("🔄 **DÉTECTION DE CHANGEMENTS SIGNIFICATIFS**" ++ nl ++ nl ++
         "🌐 **Site web ID :** " ++ to_string website_id ++ nl ++
         "📅 **Période analysée :** " ++ to_string period_days ++ " jours" ++ nl ++
         "🎯 **Seuil de détection :** ±" ++ to_string threshold ++ " positions" ++ nl ++ nl ++
         "📊 **Résumé :**" ++ nl ++
         "• Total changements détectés : " ++ to_string changes_detected ++ nl ++
         "• 📈 Améliorations : " ++ to_string improvements ++ nl ++
         "• 📉 Chutes : " ++ to_string drops ++ nl ++
         "• 🚨 Changements majeurs : " ++ to_string major_changes ++ nl ++
         "• 🆕 Nouvelles entrées : " ++ to_string new_entries ++ nl ++
         "• ❌ Disparitions : " ++ to_string disappeared ++ nl ++ nl ++
         (if changes =? "" then "✅ **Aucun changement significatif détecté**"
          else "📋 **Changements détectés :**" ++ nl ++ changes)).

End Formatters_1_1_3.

(** ** The tools: schemas, endpoints, and the handler's switch *)

Definition required (name : string) (t : ztype) : zfield := mkField name t false None.
Definition optional_field (name : string) (t : ztype) : zfield := mkField name t true None.
Definition defaulted (name : string) (t : ztype) (d : value) : zfield :=
  mkField name t true (Some d).

Definition website_id_field : zfield := required "website_id" ZNumber.

Definition ListWebsitesByUserArgsSchema : zschema := [].

Definition ListCategoriesByWebsiteArgsSchema : zschema := [website_id_field].

Definition ListKeywordsByWebsiteArgsSchema : zschema :=
  [website_id_field; defaulted "include_metrics" ZBoolean (VBool false)].

Definition ListKeywordsByCategoriesByWebsiteArgsSchema : zschema :=
  [website_id_field;
   defaulted "include_performance" ZBoolean (VBool true);
   defaulted "days" ZNumber (VNum 30)].

Definition WebsiteSummaryArgsSchema : zschema :=
  [website_id_field;
   defaulted "period" ZString (VStr "30days");
   optional_field "start_date" ZString;
   optional_field "end_date" ZString;
   optional_field "compare_start_date" ZString;
   optional_field "compare_end_date" ZString].

Definition AnalyzeKeywordArgsSchema : zschema :=
  [required "keyword" ZString; website_id_field].

Definition PositionEvolutionArgsSchema : zschema :=
  [required "keyword" ZString; website_id_field;
   defaulted "period" ZString (VStr "30days")].

Definition CompareKeywordsArgsSchema : zschema :=
  [required "keywords" ZArrayOfString; website_id_field].

Definition RankingChangesArgsSchema : zschema :=
  [website_id_field;
   defaulted "days" ZNumber (VNum 7);
   defaulted "threshold" ZNumber (VNum 3);
   optional_field "start_date" ZString;
   optional_field "end_date" ZString].

Definition ListUserWebsitesArgsSchema : zschema := [].

Definition GetKeywordsByCategoriesArgsSchema : zschema :=
  [website_id_field;
   defaulted "include_performance" ZBoolean (VBool true);
   defaulted "days" ZNumber (VNum 30)].

(** The switch of [callReferencimeAPI]: tool name to endpoint. *)
Definition endpoints (sv : server) : list (string * string) :=
  match sv with
  | Server_2_0_0 =>
      [("list_websites_by_user", "/ai/list-websites-by-user");
       ("list_categories_by_website", "/ai/list-categories-by-website");
       ("list_keywords_by_website", "/ai/list-keywords-by-website");
       ("list_keywords_by_categories_by_website",
        "/ai/list-keywords-by-categories-by-website");
       ("get_website_performance_summary", "/ai/get-website-performance-summary")]
  | Server_1_1_3 =>
      [("analyze_keyword_performance", "/ai/analyze-keyword-performance");
       ("get_position_evolution", "/ai/get-position-evolution");
       ("compare_keywords_performance", "/ai/compare-keywords-performance");
       ("get_website_performance_summary", "/ai/get-website-performance-summary");
       ("detect_ranking_changes", "/ai/detect-ranking-changes");
       ("list_user_websites", "/ai/list-user-websites");
       ("get_keywords_by_categories", "/ai/get-keywords-by-categories")]
  end.

Fixpoint assoc {A : Type} (key : string) (l : list (string * A)) : option A :=
  match l with
  | [] => None
  | (k, a) :: rest => if k =? key then Some a else assoc key rest
  end.

Definition endpoint_of (sv : server) (toolName : string) : option string :=
  assoc toolName (endpoints sv).

(** [request.params] of a tool call. *)
Record params : Type := mkParams {
  name : string;
  arguments : value
}.

Section Handler.
Context {rt : Runtime}.

(** One [case] of the handler: the schema the arguments are parsed with and
    the text built from the parsed arguments and the gateway's result. *)
Record tool : Type := mkTool {
  inputSchema : zschema;
  format : value -> value -> exn + string
}.

(** The cases of the handler's [switch (name)]. *)
Definition tools (sv : server) : list (string * tool) :=
  match sv with
  | Server_2_0_0 =>
      [("list_websites_by_user",
        mkTool ListWebsitesByUserArgsSchema (format_list_websites sv));
       ("list_categories_by_website",
        mkTool ListCategoriesByWebsiteArgsSchema format_list_categories_by_website);
       ("list_keywords_by_website",
        mkTool ListKeywordsByWebsiteArgsSchema format_list_keywords_by_website);
       ("list_keywords_by_categories_by_website",
        mkTool ListKeywordsByCategoriesByWebsiteArgsSchema
               (format_keywords_by_categories sv));
       ("get_website_performance_summary",
        mkTool WebsiteSummaryArgsSchema format_summary_2_0_0)]
  | Server_1_1_3 =>
      [("analyze_keyword_performance",
        mkTool AnalyzeKeywordArgsSchema format_analyze_keyword_performance);
       ("get_position_evolution",
        mkTool PositionEvolutionArgsSchema format_get_position_evolution);
       ("compare_keywords_performance",
        mkTool CompareKeywordsArgsSchema format_compare_keywords_performance);
       ("get_website_performance_summary",
        mkTool WebsiteSummaryArgsSchema format_summary_1_1_3);
       ("detect_ranking_changes",
        mkTool RankingChangesArgsSchema format_detect_ranking_changes);
       ("list_user_websites",
        mkTool ListUserWebsitesArgsSchema (format_list_websites sv));
       ("get_keywords_by_categories",
        mkTool GetKeywordsByCategoriesArgsSchema (format_keywords_by_categories sv))]
  end.

(** The body of the handler's [try]. *)
Definition handle (sv : server) (w : world) (p : params)
  : (exn + string) * list http_request :=
  match assoc (name p) (tools sv) with
  | Some t =>
      run_tool (callReferencimeAPI (endpoint_of sv) w) (name p)
               (inputSchema t) (format t) (arguments p)
  | None => (inl (Error ("Outil inconnu: " ++ name p)), [])
  end.

(** The [CallToolRequestSchema] handler: the report returned to the protocol
    layer, and the HTTP requests issued while handling the call. *)
Definition call_tool (sv : server) (w : world) (p : params)
  : report * list http_request :=
  try_catch (handle sv w p).

End Handler.

(** ** The [ListToolsRequestSchema] handler *)

(** One advertised tool: [inputSchema] is [zodToJsonSchema(schema)], kept
    here as the schema it is computed from. *)
Record advertised : Type := mkAdvertised {
  advertised_name : string;
  description : string;
  advertised_schema : zschema
}.

(** The [tools] array the handler returns. *)
Definition list_tools (sv : server) : list advertised :=
  match sv with
  | Server_2_0_0 =>
    [
     mkAdvertised "list_websites_by_user"
       "Liste tous les sites web auxquels l'utilisateur a accès dans son compte Referencime avec leurs IDs, noms de domaine et dates de création."
       ListWebsitesByUserArgsSchema;
     mkAdvertised "list_categories_by_website"
       "Liste toutes les catégories de mots-clés d'un site web avec le nombre de mots-clés dans chaque catégorie pour une organisation thématique SEO."
       ListCategoriesByWebsiteArgsSchema;
     mkAdvertised "list_keywords_by_website"
       "Liste tous les mots-clés suivis pour un site web avec leur catégorie et optionnellement leurs volumes de recherche Google Ads."
       ListKeywordsByWebsiteArgsSchema;
     mkAdvertised "list_keywords_by_categories_by_website"
       "Récupère tous les mots-clés d'un site web organisés par catégories avec métriques de performance GSC (positions, clics, impressions, CTR) et analyse thématique SEO complète."
       ListKeywordsByCategoriesByWebsiteArgsSchema;
     mkAdvertised "get_website_performance_summary"
       "Tableau de bord complet des performances SEO d'un site web : métriques globales GSC, distribution des positions et mots-clés les plus performants."
       WebsiteSummaryArgsSchema
    ]
  | Server_1_1_3 =>
    [
     mkAdvertised "analyze_keyword_performance"
       "Analyse complète des performances d'un mot-clé spécifique : position actuelle, volume de recherche, difficulté, trafic estimé et tendances."
       AnalyzeKeywordArgsSchema;
     mkAdvertised "get_position_evolution"
       "Évolution historique des positions d'un mot-clé dans les SERP avec données de clics, impressions et analyse des tendances sur la période sélectionnée."
       PositionEvolutionArgsSchema;
     mkAdvertised "compare_keywords_performance"
       "Comparaison détaillée des performances de plusieurs mots-clés avec recommandations d'optimisation et identification du meilleur performer."
       CompareKeywordsArgsSchema;
     mkAdvertised "get_website_performance_summary"
       "Tableau de bord complet des performances SEO d'un site web : métriques globales, évolution des positions et mots-clés les plus performants."
       WebsiteSummaryArgsSchema;
     mkAdvertised "detect_ranking_changes"
       "Détection automatique des changements significatifs de positions SERP avec alertes et recommandations d'actions prioritaires."
       RankingChangesArgsSchema;
     mkAdvertised "list_user_websites"
       "Liste tous les sites web auxquels l'utilisateur a accès dans son compte Referencime avec leurs IDs et noms de domaine."
       ListUserWebsitesArgsSchema;
     mkAdvertised "get_keywords_by_categories"
       "Récupère tous les mots-clés d'un site web organisés par catégories avec métriques de performance GSC optionnelles et analyse thématique SEO."
       GetKeywordsByCategoriesArgsSchema
    ]
  end.

(** ** The process: [runServer] and the entry point *)

(** One call of [console.error]: a text, or a text and an error. *)
Inductive console_line : Type :=
| Line (text : string)
| LineWithError (text : string) (error : exn).

(** What a run of the script did: the texts given to [console.log], the
    calls of [console.error], the exit code ([None] while the process keeps
    running), and whether the server is connected to its transport. *)
Record process_run : Type := mkRun {
  stdout : list string;
  stderr : list console_line;
  exit_code : option Z;
  serving : bool
}.

Definition starting_line (sv : server) : string :=
  match sv with
  | Server_2_0_0 => "[Referencime MCP] 🚀 Démarrage du serveur MCP Referencime v2.0..."
  | Server_1_1_3 => "[Referencime MCP] 🚀 Démarrage du serveur MCP Referencime..."
  end.

Definition ready_lines (sv : server) : list console_line :=
  match sv with
  | Server_2_0_0 =>
      [Line "[Referencime MCP] ✅ Serveur MCP Referencime prêt";
       Line "[Referencime MCP] 🛠️  5 outils d'analyse SEO disponibles (architecture refactorisée)";
       Line "[Referencime MCP] 🔗 Connecté aux APIs WordPress Referencime"]
  | Server_1_1_3 =>
      [Line "[Referencime MCP] ✅ Serveur MCP Referencime prêt pour Claude Desktop";
       Line "[Referencime MCP] 🛠️  7 outils d'analyse SEO disponibles";
       Line "[Referencime MCP] 🔗 Connecté aux vraies APIs WordPress Referencime"]
  end.

Definition missing_key_lines : list console_line :=
  [Line "[Referencime MCP] ❌ REFERENCIME_API_KEY manquant !";
   Line "[Referencime MCP] 💡 Ajoutez votre clé API dans la configuration Claude Desktop :";
   Line ("[Referencime MCP]    " ++ dq ++ "env" ++ dq ++ ": { " ++ dq ++
         "REFERENCIME_API_KEY" ++ dq ++ ": " ++ dq ++ "votre_cle_api" ++ dq ++ " }")].

(** [runServer()], with the [catch] the entry point puts on it; [connect] is
    the outcome of [server.connect(transport)]. *)
Definition runServer (sv : server) (w : world) (connect : exn + unit)
  : process_run :=
  match getApiKey w with
  | inl _ =>
      mkRun [] (Line (starting_line sv) :: missing_key_lines) (Some 1%Z) false
  | inr _ =>
      match connect with
      | inl error =>
          mkRun []
                [Line (starting_line sv);
                 Line "[Referencime MCP] ✅ Clé API Referencime détectée";
                 LineWithError "[Referencime MCP] ❌ Erreur fatale:" error]
                (Some 1%Z) false
      | inr _ =>
          mkRun []
                (Line (starting_line sv) ::
                 Line "[Referencime MCP] ✅ Clé API Referencime détectée" ::
                 ready_lines sv)
                None true
      end
  end.

(** [JSON.stringify({mcpServers: ...}, null, 2)] *)
Definition usage_configuration : string :=
  "{" ++ nl ++
  "  " ++ dq ++ "mcpServers" ++ dq ++ ": {" ++ nl ++
  "    " ++ dq ++ "referencime" ++ dq ++ ": {" ++ nl ++
  "      " ++ dq ++ "command" ++ dq ++ ": " ++ dq ++ "npx" ++ dq ++ "," ++ nl ++
  "      " ++ dq ++ "args" ++ dq ++ ": [" ++ nl ++
  "        " ++ dq ++ "-y" ++ dq ++ "," ++ nl ++
  "        " ++ dq ++ "@referencime/mcp-server" ++ dq ++ "," ++ nl ++
  "        " ++ dq ++ "start" ++ dq ++ nl ++
  "      ]," ++ nl ++
  "      " ++ dq ++ "env" ++ dq ++ ": {" ++ nl ++
  "        " ++ dq ++ "REFERENCIME_API_KEY" ++ dq ++ ": " ++ dq ++
  "votre_cle_api_ici" ++ dq ++ nl ++
  "      }" ++ nl ++
  "    }" ++ nl ++
  "  }" ++ nl ++
  "}".

Definition usage : list string :=
  ["Usage: referencime-mcp start"; ""; "Configuration Claude Desktop:";
   usage_configuration].

(** The script's last statement, on [process.argv]. *)
Definition entry_point (sv : server) (argv : list string) (w : world)
  (connect : exn + unit) : process_run :=
  if (2 <? List.length argv)%nat && (nth 2 argv "" =? "start") then
    runServer sv w connect
  else mkRun usage [] (Some 0%Z) false.

(** ** A runtime for the examples

    An engine with an ASCII [toUpperCase], V8's TypeError messages, and
    locale functions that print a number without grouping.  Only used to
    evaluate the handlers on concrete inputs. *)

Definition upper_ascii (c : ascii) : ascii :=
  let n := nat_of_ascii c in
  if (97 <=? n)%nat && (n <=? 122)%nat then ascii_of_nat (n - 32) else c.

Fixpoint upper (s : string) : string :=
  match s with
  | EmptyString => EmptyString
  | String c rest => String (upper_ascii c) (upper rest)
  end.

Definition integer_of_string (s : string) : num :=
  match NilZero.int_of_string s with
  | Some i => Some (inject_Z (Z.of_int i))
  | None => None
  end.

Definition plain_number (v : value) : string :=
  match v with
  | VNum q => string_of_Z (Qfloor q)
  | VStr s => s
  | _ => ""
  end.

Definition v8_message (f : fault) : string :=
  match f with
  | ReadOfNullish VNull prop =>
      "Cannot read properties of null (reading '" ++ prop ++ "')"
  | ReadOfNullish _ prop =>
      "Cannot read properties of undefined (reading '" ++ prop ++ "')"
  | NotAFunction callee => callee ++ " is not a function"
  end.

Definition issue_path (i : issue) : string :=
  match i with
  | ExpectedObject _ => "(arguments)"
  | Required path => path
  | InvalidType path _ _ => path
  end.

Definition example_runtime : Runtime := {|
  frac_toString := fun q => string_of_Z (Qnum q) ++ "/" ++ string_of_Z (Zpos (Qden q));
  StringToNumber := integer_of_string;
  toLocaleString := plain_number;
  toUpperCase := upper;
  toLocaleDateString_fr := plain_number;
  toLocaleString_fr := plain_number;
  fault_message := v8_message;
  zod_message := fun issues => join ", " (map issue_path issues)
|}.

(** * Vocabulary of the properties

    The predicates the theorems are stated with, the claims as they are
    worded, and the inputs of the examples. *)

Section Vocabulary.
Context {rt : Runtime}.

(** [sub] occurs in [s]. *)
Definition contains (s sub : string) : Prop :=
  exists before after, s = before ++ sub ++ after.

(** ** Every tool the handler knows has an endpoint *)

(** The request a call sends once its tool is known, its arguments are
    valid and the API key is set. *)
Definition outbound (sv : server) (w : world) (p : params)
  : option (tool * value * http_request) :=
  match assoc (name p) (tools sv) with
  | Some t =>
      match safeParse (inputSchema t) (arguments p) with
      | inr data =>
          match getApiKey w, endpoint_of sv (name p) with
          | inr apiKey, Some endpoint =>
              Some (t, data,
                    mkRequest (baseURL ++ endpoint) ("Bearer " ++ apiKey) data)
          | _, _ => None
          end
      | inl _ => None
      end
  | None => None
  end.

(** What the gateway does with the response to that request. *)
Definition unwrap (resp : response) : exn + value :=
  if negb (ok resp) then
    inl (Error ("Erreur API WordPress: " ++ string_of_Z (status resp) ++ " " ++
                statusText resp))
  else
    let* result := json resp in
    let* success := get result "success" in
    if negb (truthy success) then
      let* m := get result "message" in
      inl (Error ("Erreur dans la réponse API: " ++
                  to_string (js_or m (VStr "Erreur inconnue"))))
    else get result "data".

(** ** C1: the handler always answers *)

(** The ways a call can fail, stage by stage, with the exception raised. *)
Inductive failure (sv : server) (w : world) (p : params) : exn -> Prop :=
| unknown_tool :
    assoc (name p) (tools sv) = None ->
    failure sv w p (Error ("Outil inconnu: " ++ name p))
| invalid_arguments t issues :
    assoc (name p) (tools sv) = Some t ->
    safeParse (inputSchema t) (arguments p) = inl issues ->
    failure sv w p
      (Error ("Arguments invalides pour " ++ name p ++ ": " ++ zod_message issues))
| missing_api_key t data e :
    assoc (name p) (tools sv) = Some t ->
    safeParse (inputSchema t) (arguments p) = inr data ->
    getApiKey w = inl e ->
    failure sv w p e
| rejected_fetch t data rq e :
    outbound sv w p = Some (t, data, rq) ->
    fetch w rq = inl e ->
    failure sv w p e
| http_error t data rq resp :
    outbound sv w p = Some (t, data, rq) ->
    fetch w rq = inr resp ->
    ok resp = false ->
    failure sv w p
      (Error ("Erreur API WordPress: " ++ string_of_Z (status resp) ++ " " ++
              statusText resp))
| unreadable_body t data rq resp e :
    outbound sv w p = Some (t, data, rq) ->
    fetch w rq = inr resp ->
    ok resp = true ->
    json resp = inl e ->
    failure sv w p e
| unreadable_envelope t data rq resp result e :
    outbound sv w p = Some (t, data, rq) ->
    fetch w rq = inr resp ->
    ok resp = true ->
    json resp = inr result ->
    get result "success" = inl e ->
    failure sv w p e
| backend_failure t data rq resp result success m :
    outbound sv w p = Some (t, data, rq) ->
    fetch w rq = inr resp ->
    ok resp = true ->
    json resp = inr result ->
    get result "success" = inr success ->
    truthy success = false ->
    get result "message" = inr m ->
    failure sv w p
      (Error ("Erreur dans la réponse API: " ++
              to_string (js_or m (VStr "Erreur inconnue"))))
| formatter_exception t data rq resp result e :
    outbound sv w p = Some (t, data, rq) ->
    fetch w rq = inr resp ->
    unwrap resp = inr result ->
    format t data result = inl e ->
    failure sv w p e.

(** ** Example inputs *)

(** A world whose key is set and whose backend answers every request with
    [resp]. *)
Definition answering (resp : response) : world :=
  mkWorld (Some "secret") (fun _ => inr resp).

Definition no_arguments : value := VObj [].

Definition site_7 : value := VObj [("website_id", VNum 7)].

(** ** Validation *)

(** The issue a field raises on the value [v] found for it. *)
Definition field_issue (f : zfield) (v : value) : issue :=
  match v with
  | VUndefined => Required (fname f)
  | _ => InvalidType (fname f) (ftype f) v
  end.

(** The field is required and the arguments do not have it. *)
Definition lacks (args : value) (f : zfield) : Prop :=
  optional f = false /\ default f = None /\ get_opt args (fname f) = VUndefined.

(** The arguments have the field, with a value of another type than the
    declared one. *)
Definition mistypes (args : value) (f : zfield) : Prop :=
  get_opt args (fname f) <> VUndefined /\
  has_type (ftype f) (get_opt args (fname f)) = false.

(** The backend's answer of the specification's example scenario: two
    sites, the first a favourite. *)
Definition two_sites : response :=
  mkResponse 200 "OK"
    (inr (VObj [("success", VBool true);
                ("data",
                 VObj [("user_id", VNum 7); ("websites_count", VNum 2);
                       ("websites",
                        VArr [VObj [("id", VNum 1); ("domain", VStr "a.fr");
                                    ("is_favorite", VBool true);
                                    ("created_date", VStr "2024-01-01")];
                              VObj [("id", VNum 2); ("domain", VStr "b.fr");
                                    ("is_favorite", VBool false);
                                    ("created_date", VStr "2024-02-01")]])])])).

(** A backend that answers with an empty success envelope. *)
Definition empty_success : response :=
  mkResponse 200 "OK" (inr (VObj [("success", VBool true); ("data", VObj [])])).

(** ** C10: the CTR field of a keyword line *)




(** A keyword with 12 clicks, 340 impressions and a CTR of 3.5 %. *)
Definition keyword_with_ctr : value :=
  VObj [("keyword", VStr "seo");
        ("performance_metrics",
         VObj [("has_data", VBool true); ("position", VNum 3);
               ("clicks", VNum 12); ("impressions", VNum 340);
               ("ctr", VNum (35 # 1000))])].

(** ** C2: truncation of keyword lists *)





(** ** C3: the average position *)


(** The keywords of a result of the expected shape: [categories] is an
    array of objects, each with an array of [keywords]. *)
Definition category_keywords (cat : value) : option (list value) :=
  match get_opt cat "keywords" with
  | VArr ks => Some ks
  | _ => None
  end.

Fixpoint all_keywords (cats : list value) : option (list value) :=
  match cats with
  | [] => Some []
  | cat :: rest =>
      match category_keywords cat, all_keywords rest with
      | Some ks, Some more => Some (ks ++ more)%list
      | _, _ => None
      end
  end.

Definition result_keywords (result : value) : option (list value) :=
  match get_opt result "categories" with
  | VArr cats => all_keywords cats
  | _ => None
  end.








Definition keyword_at (position : value) : value :=
  VObj [("keyword", VStr "seo");
        ("performance_metrics", VObj [("has_data", VBool true); ("position", position)])].

(** One category with three keywords: positions 0 and 4, and one keyword
    without metrics. *)
Definition result_with_position_0 : value :=
  VObj [("categories",
         VArr [VObj [("category_name", VStr "blog"); ("keywords_count", VNum 3);
                     ("keywords",
                      VArr [keyword_at (VNum 0); keyword_at (VNum 4);
                            VObj [("keyword", VStr "sem")]])]])].


(** ** C8 and C9: grouping by category *)

(** The name of the group a keyword goes to. *)
Definition category_key (k : value) : string :=
  to_string (js_or (get_opt k "category_name") (VStr "Non catégorisé")).

(** The keys not seen before, each once, in the order they first occur. *)
Fixpoint unseen (seen keys : list string) : list string :=
  match keys with
  | [] => []
  | c :: rest =>
      if existsb (String.eqb c) seen then unseen seen rest
      else c :: unseen (c :: seen) rest
  end.




(** A keyword can be grouped by this formatter: it is an object or a
    primitive, and its group name is not the name of a member of
    [Object.prototype]; its category is ordinary when, moreover, the name
    is no array index. *)
Definition groupable (k : value) : Prop :=
  is_nullish k = false /\
  existsb (String.eqb (category_key k)) object_prototype_keys = false.


Definition keyword_in (keyword : string) (category_name : value) : value :=
  VObj [("keyword", VStr keyword); ("category_name", category_name)].

(** Two keywords; the category of the second is named "1". *)
Definition keywords_b_then_1 : list value :=
  [keyword_in "seo" (VStr "b"); keyword_in "sem" (VStr "1")].

(** What [group_keyword] does to the object when the name is neither own
    nor inherited, or own. *)
Definition add_to_group (o : bag) (c : string) (k : value) : bag :=
  match own o c with
  | Some items => write o c (items ++ [k])%list
  | None => (o ++ [(c, [k])])%list
  end.

Fixpoint add_all (o : bag) (ks : list value) : bag :=
  match ks with
  | [] => o
  | k :: rest => add_all (add_to_group o (category_key k) k) rest
  end.

(** The keywords of group [c]. *)
Definition group_of (o : bag) (c : string) : list value :=
  match own o c with
  | Some items => items
  | None => []
  end.

(** ** C9: a category named like a member of [Object.prototype] *)

(** The backend's answer to [list_keywords_by_website] for a site whose one
    keyword is in the category "constructor". *)
Definition constructor_site : response :=
  mkResponse 200 "OK"
    (inr (VObj [("success", VBool true);
                ("data",
                 VObj [("website_id", VNum 7); ("keywords_count", VNum 1);
                       ("include_metrics", VBool false);
                       ("keywords",
                        VArr [keyword_in "maison" (VStr "constructor")])])])).

End Vocabulary.

(** Case analysis on the name of a tool, by the tests of a table lookup. *)
Ltac split_on_name n :=
  repeat match goal with
    | H : context [if ?k =? n then _ else _] |- _ =>
        let E := fresh "E" in
        destruct (k =? n) eqn:E;
        [apply String.eqb_eq in E; subst n | ]
    end.

Ltac split_goal_on_name n :=
  repeat match goal with
    | |- context [if ?k =? n then _ else _] =>
        let E := fresh "E" in
        destruct (k =? n) eqn:E;
        [apply String.eqb_eq in E; subst n | ]
    end.

(** * Further vocabulary *)

Section FurtherVocabulary.
Context {rt : Runtime}.

(** A tool's name with its underscores turned into hyphens. *)
Fixpoint hyphenate (s : string) : string :=
  match s with
  | EmptyString => EmptyString
  | String c rest =>
      String (if Ascii.eqb c "_"%char then "-"%char else c) (hyphenate rest)
  end.

(** The text of the error [getApiKey] throws. *)
Definition key_not_configured : string :=
  "REFERENCIME_API_KEY non configuré. Ajoutez votre clé API dans la configuration Claude Desktop.".

(** Whether two optional strings are the same. *)
Definition string_option_dec (a b : option string) : {a = b} + {a <> b}.
Proof. decide equality. apply string_dec. Defined.

(** The exception a keyword that cannot be grouped raises: reading
    [category_name] of undefined or null, or calling [push] on a member of
    [Object.prototype]. *)
Definition grouping_fault (k : value) : exn :=
  match get k "category_name" with
  | inl e => e
  | inr _ => TypeError (NotAFunction "byCategory[catName].push")
  end.

(** No own property of the object shadows a member of [Object.prototype]. *)
Definition shadows_nothing (o : bag) : Prop :=
  forall c, In c (map fst o) ->
            existsb (String.eqb c) object_prototype_keys = false.

End FurtherVocabulary.

(** * Properties *)


Lemma append_empty_r (a : string) : a ++ "" = a.
Proof.
  induction a as [|ch a IH]; simpl; [reflexivity | now rewrite IH].
Qed.


Lemma contains_end (a sub : string) : contains (a ++ sub) sub.
Proof. exists a, "". now rewrite append_empty_r. Qed.

(** ** Every tool the handler knows has an endpoint *)

Section HandlerFacts.
Context {rt : Runtime}.

Lemma endpoint_declared sv n t :
  assoc n (tools sv) = Some t -> exists endpoint, endpoint_of sv n = Some endpoint.
Proof.
  intros H. destruct sv; cbn [assoc tools] in H; split_on_name n;
    try discriminate; eexists; reflexivity.
Qed.

Lemma gateway_outbound sv w p t data rq :
  outbound sv w p = Some (t, data, rq) ->
  callReferencimeAPI (endpoint_of sv) w (name p) data =
    (let* resp := fetch w rq in unwrap resp, [rq]).
Proof.
  unfold outbound, callReferencimeAPI, unwrap.
  destruct (assoc (name p) (tools sv)) as [t'|]; [|discriminate].
  destruct (safeParse (inputSchema t') (arguments p)) as [|data']; [discriminate|].
  destruct (getApiKey w) as [|apiKey]; [discriminate|].
  destruct (endpoint_of sv (name p)) as [endpoint|]; [|discriminate].
  intros H; injection H as <- <- <-.
  destruct (fetch w _) as [e|resp]; simpl; [reflexivity|].
  destruct (negb (ok resp)); [reflexivity|].
  destruct (json resp) as [e|result]; simpl; [reflexivity|].
  destruct (get result "success") as [e|success]; simpl; [reflexivity|].
  destruct (negb (truthy success)).
  - destruct (get result "message"); reflexivity.
  - destruct (get result "data"); reflexivity.
Qed.

Lemma handle_outbound sv w p t data rq :
  outbound sv w p = Some (t, data, rq) ->
  handle sv w p =
    (let* resp := fetch w rq in
     let* result := unwrap resp in
     format t data result, [rq]).
Proof.
  intros H. pose proof (gateway_outbound _ _ _ _ _ _ H) as G.
  unfold outbound in H. unfold handle, run_tool.
  destruct (assoc (name p) (tools sv)) as [t'|]; [|discriminate].
  destruct (safeParse (inputSchema t') (arguments p)) as [|data']; [discriminate|].
  destruct (getApiKey w) as [|apiKey]; [discriminate|].
  destruct (endpoint_of sv (name p)) as [endpoint|]; [|discriminate].
  injection H as <- <- <-. rewrite G.
  destruct (fetch w _) as [e|resp]; simpl; [reflexivity|].
  destruct (unwrap resp); reflexivity.
Qed.

(** ** C1: the handler always answers *)

Lemma failure_handle sv w p e :
  failure sv w p e -> fst (handle sv w p) = inl e.
Proof.
  intros F. destruct F as
    [U | t issues K V | t data e K V A | t data rq e O R
     | t data rq resp O R H | t data rq resp e O R H J
     | t data rq resp result e O R H J S
     | t data rq resp result success m O R H J S T M
     | t data rq resp result e O R U X].
  - unfold handle. now rewrite U.
  - unfold handle, run_tool. now rewrite K, V.
  - unfold handle, run_tool, callReferencimeAPI. now rewrite K, V, A.
  - rewrite (handle_outbound _ _ _ _ _ _ O), R. reflexivity.
  - rewrite (handle_outbound _ _ _ _ _ _ O), R. cbn [fst bind]. unfold unwrap.
    now rewrite H.
  - rewrite (handle_outbound _ _ _ _ _ _ O), R. cbn [fst bind]. unfold unwrap.
    now rewrite H, J.
  - rewrite (handle_outbound _ _ _ _ _ _ O), R. cbn [fst bind]. unfold unwrap.
    rewrite H, J. cbn [negb bind]. now rewrite S.
  - rewrite (handle_outbound _ _ _ _ _ _ O), R. cbn [fst bind]. unfold unwrap.
    rewrite H, J. cbn [negb bind]. rewrite S. cbn [bind]. rewrite T.
    cbn [negb]. now rewrite M.
  - rewrite (handle_outbound _ _ _ _ _ _ O), R. cbn [fst bind]. rewrite U.
    cbn [bind]. exact X.
Qed.

(** The stages listed by [failure] are all there is: whenever the body of
    the handler throws, one of them failed. *)
Lemma handle_failure sv w p e log :
  handle sv w p = (inl e, log) -> failure sv w p e.
Proof.
  intros H.
  destruct (assoc (name p) (tools sv)) as [t|] eqn:K.
  2:{ unfold handle in H. rewrite K in H. injection H as <- _. now apply unknown_tool. }
  destruct (safeParse (inputSchema t) (arguments p)) as [issues|data] eqn:V.
  1:{ unfold handle, run_tool in H. rewrite K, V in H. injection H as <- _.
      now apply invalid_arguments with t. }
  destruct (getApiKey w) as [e'|apiKey] eqn:A.
  1:{ unfold handle, run_tool, callReferencimeAPI in H. rewrite K, V, A in H.
      injection H as <- _. now apply missing_api_key with t data. }
  destruct (endpoint_declared _ _ _ K) as [endpoint P].
  assert (O : outbound sv w p =
              Some (t, data, mkRequest (baseURL ++ endpoint) ("Bearer " ++ apiKey) data)).
  { unfold outbound. now rewrite K, V, A, P. }
  rewrite (handle_outbound _ _ _ _ _ _ O) in H.
  destruct (fetch w _) as [e'|resp] eqn:R; simpl in H.
  1:{ injection H as <- _. eapply rejected_fetch; eauto. }
  destruct (unwrap resp) as [e'|result] eqn:U; simpl in H.
  2:{ injection H as H _. eapply formatter_exception; eauto. }
  injection H as <- _. unfold unwrap in U.
  destruct (ok resp) eqn:H; simpl in U.
  2:{ injection U as <-. eapply http_error; eauto. }
  destruct (json resp) as [e''|body] eqn:J; simpl in U.
  1:{ injection U as <-. eapply unreadable_body; eauto. }
  destruct (get body "success") as [e''|success] eqn:S; simpl in U.
  1:{ injection U as <-. eapply unreadable_envelope; eauto. }
  destruct (truthy success) eqn:T; simpl in U.
  - destruct body; simpl in S, U; try discriminate.
  - destruct (get body "message") as [e''|m] eqn:M; simpl in U.
    + destruct body; simpl in S, M; discriminate.
    + injection U as <-. eapply backend_failure; eauto.
Qed.

(** C1. For every incoming tool-call request, whichever stage fails
    (unknown tool name, argument validation, missing key, rejected fetch,
    HTTP error status, unreadable body, backend-reported failure, formatter
    exception), the handler returns a report: its error flag is set and its
    text carries the message of the error.  The handler is a total function
    into reports, so no fault reaches the protocol layer. *)
Theorem call_tool_reports_every_failure sv w p e :
  failure sv w p e ->
  fst (call_tool sv w p) = mkReport ("❌ **Erreur**: " ++ message e) true.
Proof.
  intros F. apply failure_handle in F.
  unfold call_tool, try_catch.
  destruct (handle sv w p) as [[e'|t] log]; simpl in F.
  - injection F as ->. reflexivity.
  - discriminate.
Qed.

(** A report that is not flagged carries the formatter's text: the handler
    answers with one of the two shapes, nothing else. *)
Lemma call_tool_report_shape sv w p :
  (exists e, failure sv w p e /\
             fst (call_tool sv w p) = mkReport ("❌ **Erreur**: " ++ message e) true)
  \/ (exists t, fst (handle sv w p) = inr t /\
                fst (call_tool sv w p) = mkReport t false).
Proof.
  unfold call_tool, try_catch.
  destruct (handle sv w p) as [[e|t] log] eqn:H.
  - left. exists e. split; [now apply handle_failure with log | reflexivity].
  - right. exists t. now split.
Qed.

End HandlerFacts.

(** ** C4 and C5: what the gateway makes of the backend's answer *)

Section GatewayFacts.
Context {rt : Runtime}.

Lemma ok_false_iff (resp : response) :
  ok resp = false <-> (status resp < 200 \/ 299 < status resp)%Z.
Proof.
  unfold ok. rewrite andb_false_iff, !Z.leb_gt. reflexivity.
Qed.

Lemma call_tool_outbound sv w p t data rq :
  outbound sv w p = Some (t, data, rq) ->
  call_tool sv w p =
    try_catch (let* resp := fetch w rq in
               let* result := unwrap resp in
               format t data result, [rq]).
Proof.
  intros O. unfold call_tool. now rewrite (handle_outbound _ _ _ _ _ _ O).
Qed.

(** C5. When the backend answers with a status outside 200..299, the
    gateway fails with the error carrying the status and the status text;
    the handler's report is flagged and its text contains the status code. *)
Theorem http_error_is_reported sv w p t data rq resp :
  outbound sv w p = Some (t, data, rq) ->
  fetch w rq = inr resp ->
  (status resp < 200 \/ 299 < status resp)%Z ->
  callReferencimeAPI (endpoint_of sv) w (name p) data =
    (inl (Error ("Erreur API WordPress: " ++ string_of_Z (status resp) ++ " " ++
                 statusText resp)), [rq]) /\
  call_tool sv w p =
    (mkReport ("❌ **Erreur**: Erreur API WordPress: " ++
               string_of_Z (status resp) ++ " " ++ statusText resp) true, [rq]) /\
  contains (text (fst (call_tool sv w p))) (string_of_Z (status resp)).
Proof.
  intros O R S. apply ok_false_iff in S.
  assert (U : unwrap resp =
              inl (Error ("Erreur API WordPress: " ++ string_of_Z (status resp) ++
                          " " ++ statusText resp))).
  { unfold unwrap. now rewrite S. }
  assert (C : call_tool sv w p =
              (mkReport ("❌ **Erreur**: Erreur API WordPress: " ++
                         string_of_Z (status resp) ++ " " ++ statusText resp) true,
               [rq])).
  { rewrite (call_tool_outbound _ _ _ _ _ _ O), R. cbn [bind]. rewrite U. reflexivity. }
  split; [|split].
  - rewrite (gateway_outbound _ _ _ _ _ _ O), R. cbn [bind]. now rewrite U.
  - exact C.
  - rewrite C. cbn [fst text].
    exists "❌ **Erreur**: Erreur API WordPress: ", (" " ++ statusText resp).
    reflexivity.
Qed.


End GatewayFacts.

(** A call that succeeds: both sites are listed, the first one starred,
    with the count the backend gave. *)
Example list_websites_by_user_report :
  call_tool (rt := example_runtime) Server_2_0_0 (answering two_sites)
    (mkParams "list_websites_by_user" no_arguments) =
  (mkReport
     ("🌐 **VOS SITES WEB REFERENCIME**" ++ nl ++ nl ++
      "👤 **Utilisateur ID :** 7" ++ nl ++
      "📊 **Nombre de sites :** 2" ++ nl ++ nl ++
      "📋 **Liste des sites :**" ++ nl ++
      "• **a.fr** (ID: 1) ⭐ - Créé le 2024-01-01" ++ nl ++
      "• **b.fr** (ID: 2) - Créé le 2024-02-01" ++ nl ++ nl ++
      "💡 **Utilisation :** Utilisez l'ID du site dans les autres outils d'analyse SEO.")
     false,
   [mkRequest "https://referencime.fr/wp-json/easy-links/v1/ai/list-websites-by-user"
              "Bearer secret" (VObj [])]).
Proof. reflexivity. Qed.

(** A call that ends in a formatter exception: the backend's data has no
    [websites]. *)
Lemma call_tool_reports_every_failure_witness :
  fst (call_tool (rt := example_runtime) Server_2_0_0
         (answering (mkResponse 200 "OK"
            (inr (VObj [("success", VBool true); ("data", VObj [])]))))
         (mkParams "list_websites_by_user" no_arguments)) =
  mkReport ("❌ **Erreur**: Cannot read properties of undefined (reading 'map')") true.
Proof.
  apply (call_tool_reports_every_failure (rt := example_runtime) Server_2_0_0
           (answering (mkResponse 200 "OK"
              (inr (VObj [("success", VBool true); ("data", VObj [])]))))
           (mkParams "list_websites_by_user" no_arguments)
           (TypeError (ReadOfNullish VUndefined "map"))).
  eapply formatter_exception; reflexivity.
Defined.

Lemma http_error_is_reported_witness :
  callReferencimeAPI (rt := example_runtime) (endpoint_of Server_1_1_3)
    (answering (mkResponse 404 "Not Found" (inl (Rejected "Unexpected token <"))))
    "list_user_websites" (VObj []) =
    (inl (Error "Erreur API WordPress: 404 Not Found"),
     [mkRequest "https://referencime.fr/wp-json/easy-links/v1/ai/list-user-websites"
                "Bearer secret" (VObj [])]) /\
  call_tool (rt := example_runtime) Server_1_1_3
    (answering (mkResponse 404 "Not Found" (inl (Rejected "Unexpected token <"))))
    (mkParams "list_user_websites" no_arguments) =
    (mkReport "❌ **Erreur**: Erreur API WordPress: 404 Not Found" true,
     [mkRequest "https://referencime.fr/wp-json/easy-links/v1/ai/list-user-websites"
                "Bearer secret" (VObj [])]) /\
  contains
    (text (fst (call_tool (rt := example_runtime) Server_1_1_3
       (answering (mkResponse 404 "Not Found" (inl (Rejected "Unexpected token <"))))
       (mkParams "list_user_websites" no_arguments))))
    "404".
Proof.
  apply (http_error_is_reported (rt := example_runtime) Server_1_1_3
           (answering (mkResponse 404 "Not Found" (inl (Rejected "Unexpected token <"))))
           (mkParams "list_user_websites" no_arguments)
           (mkTool ListUserWebsitesArgsSchema
                   (format_list_websites (rt := example_runtime) Server_1_1_3))
           (VObj [])
           (mkRequest "https://referencime.fr/wp-json/easy-links/v1/ai/list-user-websites"
                      "Bearer secret" (VObj []))
           (mkResponse 404 "Not Found" (inl (Rejected "Unexpected token <")))).
  - reflexivity.
  - reflexivity.
  - right. reflexivity.
Defined.


(** ** C6 and C7: validation of the arguments *)

Lemma parse_field_issue props f i :
  parse_field props f = inl i ->
  i = field_issue f (lookup (fname f) props) /\
  (lacks (VObj props) f \/ mistypes (VObj props) f).
Proof.
  unfold parse_field, lacks, mistypes, get_opt.
  destruct (lookup (fname f) props) eqn:L.
  1:{ destruct (default f); [discriminate|].
      destruct (optional f); [discriminate|].
      intros H; injection H as <-. split; [reflexivity|]. left. now repeat split. }
  all: destruct (has_type (ftype f) _) eqn:T; [discriminate|];
    intros H; injection H as <-; (split; [reflexivity|]);
    right; split; [discriminate | reflexivity].
Qed.

Lemma parse_field_lacks props f :
  lacks (VObj props) f -> parse_field props f = inl (Required (fname f)).
Proof.
  unfold lacks, parse_field, get_opt. intros (O & D & L).
  now rewrite L, D, O.
Qed.

Lemma parse_field_mistypes props f :
  mistypes (VObj props) f ->
  parse_field props f =
    inl (InvalidType (fname f) (ftype f) (lookup (fname f) props)).
Proof.
  unfold mistypes, parse_field, get_opt. intros (N & T).
  destruct (lookup (fname f) props); try (now rewrite T).
  now contradiction N.
Qed.


Lemma parse_fields_issues props s :
  forall i, In i (fst (parse_fields props s)) <->
            exists f, In f s /\ parse_field props f = inl i.
Proof.
  induction s as [|f s IH]; intros i; simpl.
  - split; [contradiction | now intros (f & [] & _)].
  - destruct (parse_fields props s) as [issues out]. simpl in IH.
    destruct (parse_field props f) as [j|kv] eqn:P; simpl.
    + rewrite IH. split.
      * intros [<- | (g & G & Q)]; [now exists f; auto | exists g; auto].
      * intros (g & [<- | G] & Q); [left; congruence | right; now exists g].
    + rewrite IH. split.
      * intros (g & G & Q). exists g; auto.
      * intros (g & [<- | G] & Q); [congruence | now exists g].
Qed.




Lemma safeParse_failure s props issues :
  safeParse s (VObj props) = inl issues <->
  issues <> [] /\ fst (parse_fields props s) = issues.
Proof.
  unfold safeParse. destruct (parse_fields props s) as [[|i l] o]; simpl.
  - split; [discriminate | intros (N & <-); now contradiction N].
  - split; [intros H; injection H as <-; split; [discriminate | reflexivity]
           | intros (_ & <-); reflexivity].
Qed.

Lemma safeParse_rejects s args f :
  In f s -> lacks args f \/ mistypes args f ->
  exists issues, safeParse s args = inl issues /\ issues <> [] /\
                 forall props, args = VObj props ->
                               In (field_issue f (lookup (fname f) props)) issues.
Proof.
  intros I B. destruct args as [| | | | | |props];
    try (eexists; split; [reflexivity|]; split; [discriminate | intros ? [=]]).
  assert (P : parse_field props f = inl (field_issue f (lookup (fname f) props))).
  { destruct B as [L | M].
    - rewrite (parse_field_lacks _ _ L). destruct L as (_ & _ & L). simpl in L.
      now rewrite L.
    - rewrite (parse_field_mistypes _ _ M). destruct M as (N & _). simpl in N.
      now destruct (lookup (fname f) props). }
  assert (J : In (field_issue f (lookup (fname f) props)) (fst (parse_fields props s))).
  { apply parse_fields_issues. now exists f. }
  exists (fst (parse_fields props s)). split; [|split].
  - apply safeParse_failure. split; [|reflexivity].
    intros E. now rewrite E in J.
  - intros E. now rewrite E in J.
  - intros props' [= <-]. exact J.
Qed.

Section ValidationFacts.
Context {rt : Runtime}.

(** C6. For every tool of either server and every argument set in which a
    required field is missing or a declared field has a value of the wrong
    type, the call is answered with a flagged report whose text names the
    tool, and no HTTP request is issued. *)
Theorem invalid_arguments_are_reported sv w p t f :
  assoc (name p) (tools sv) = Some t ->
  In f (inputSchema t) ->
  lacks (arguments p) f \/ mistypes (arguments p) f ->
  exists issues,
    issues <> [] /\
    (forall props, arguments p = VObj props ->
                   In (field_issue f (lookup (fname f) props)) issues) /\
    call_tool sv w p =
      (mkReport ("❌ **Erreur**: Arguments invalides pour " ++ name p ++ ": " ++
                 zod_message issues) true, []) /\
    contains (text (fst (call_tool sv w p))) (name p).
Proof.
  intros K I B.
  destruct (safeParse_rejects _ _ _ I B) as (issues & V & N & J).
  exists issues.
  assert (C : call_tool sv w p =
              (mkReport ("❌ **Erreur**: Arguments invalides pour " ++ name p ++ ": " ++
                         zod_message issues) true, [])).
  { unfold call_tool, handle, run_tool. now rewrite K, V. }
  repeat split; try assumption.
  rewrite C. cbn [fst text].
  exists "❌ **Erreur**: Arguments invalides pour ", (": " ++ zod_message issues).
  reflexivity.
Qed.



End ValidationFacts.

(** [list_keywords_by_website] called without its [website_id]. *)
Lemma invalid_arguments_are_reported_witness :
  exists issues,
    issues <> [] /\
    (forall props, no_arguments = VObj props ->
                   In (field_issue website_id_field (lookup "website_id" props)) issues) /\
    call_tool (rt := example_runtime) Server_2_0_0 (answering empty_success)
      (mkParams "list_keywords_by_website" no_arguments) =
      (mkReport ("❌ **Erreur**: Arguments invalides pour list_keywords_by_website: " ++
                 @zod_message example_runtime issues) true, []) /\
    contains
      (text (fst (call_tool (rt := example_runtime) Server_2_0_0 (answering empty_success)
                    (mkParams "list_keywords_by_website" no_arguments))))
      "list_keywords_by_website".
Proof.
  apply (invalid_arguments_are_reported (rt := example_runtime) Server_2_0_0
           (answering empty_success)
           (mkParams "list_keywords_by_website" no_arguments)
           (mkTool ListKeywordsByWebsiteArgsSchema
                   (format_list_keywords_by_website (rt := example_runtime)))
           website_id_field).
  - reflexivity.
  - left. reflexivity.
  - left. repeat split.
Defined.


(** ** C10: the CTR field of a keyword line *)

Lemma inr_inj {A B : Type} (a b : B) : @inr A B a = inr b -> a = b.
Proof. congruence. Qed.


Section KeywordLineFacts.
Context {rt : Runtime}.





End KeywordLineFacts.



(** ** C2: truncation of keyword lists *)


Section TruncationFacts.
Context {rt : Runtime}.







End TruncationFacts.

Example keyword_line_with_ctr :
  keyword_line (rt := example_runtime) Server_2_0_0
    (VObj [("include_performance", VBool true)]) keyword_with_ctr =
  inr "   • **seo** | #3 | 12 clics | 340 impr | CTR: 3.5%".
Proof. reflexivity. Qed.

Example keyword_line_without_performance :
  keyword_line (rt := example_runtime) Server_1_1_3
    (VObj [("include_performance", VBool false)]) keyword_with_ctr =
  inr "   • **seo**".
Proof. reflexivity. Qed.




(** ** C3: the average position *)

Lemma Some_inj {A : Type} (a b : A) : Some a = Some b -> a = b.
Proof. congruence. Qed.


Lemma get_get_opt v p : is_nullish v = false -> get v p = inr (get_opt v p).
Proof. destruct v; try discriminate; reflexivity. Qed.



Section AverageFacts.
Context {rt : Runtime}.









End AverageFacts.

(** Positions 0 and 4: the formatter prints 4.0, the position above 0,
    where the mean of the two numeric positions is 2. *)
Example average_line_with_position_0 :
  (let* avg := avgPosition (rt := example_runtime) result_with_position_0 in
   ret (avgPosition_line (rt := example_runtime) avg)) =
  inr ("• Position moyenne : #4.0" ++ nl).
Proof. reflexivity. Qed.



(** ** C8 and C9: grouping by category *)

Lemma own_write o c items c' :
  own (write o c items) c' = if c =? c' then Some items else own o c'.
Proof.
  induction o as [|[k old] o IH]; simpl.
  - reflexivity.
  - destruct (k =? c) eqn:E; simpl.
    + apply String.eqb_eq in E. subst k. now destruct (c =? c').
    + rewrite IH. destruct (k =? c') eqn:E'; [|reflexivity].
      apply String.eqb_eq in E'. subst k. rewrite String.eqb_sym in E. now rewrite E.
Qed.

Lemma own_app (o : bag) c items c' :
  own (o ++ [(c, items)])%list c' =
  match own o c' with
  | Some found => Some found
  | None => if c =? c' then Some items else None
  end.
Proof.
  induction o as [|[k old] o IH]; simpl.
  - reflexivity.
  - now destruct (k =? c').
Qed.

Lemma write_absent o c items : own o c = None -> write o c items = (o ++ [(c, items)])%list.
Proof.
  induction o as [|[k old] o IH]; simpl; [reflexivity|].
  destruct (k =? c); [discriminate|]. intros H. now rewrite IH.
Qed.

Lemma keys_write_present o c items found :
  own o c = Some found -> map fst (write o c items) = map fst o.
Proof.
  induction o as [|[k old] o IH]; simpl; [discriminate|].
  destruct (k =? c); [reflexivity|]. intros H. simpl. now rewrite IH.
Qed.

Lemma own_some_in o c : (exists items, own o c = Some items) <-> In c (map fst o).
Proof.
  induction o as [|[k old] o IH]; simpl.
  - split; [intros (? & [=]) | contradiction].
  - destruct (k =? c) eqn:E.
    + apply String.eqb_eq in E. split; [now left | now exists old].
    + apply String.eqb_neq in E. rewrite IH. split; [now right | now intros [|]].
Qed.

Lemma own_none_not_in o c : own o c = None <-> ~ In c (map fst o).
Proof.
  rewrite <- own_some_in. destruct (own o c) as [items|].
  - split; [discriminate | intros H; exfalso; apply H; now exists items].
  - split; [intros _ (? & [=]) | reflexivity].
Qed.

Lemma existsb_eqb_in c l : existsb (String.eqb c) l = true <-> In c l.
Proof.
  rewrite existsb_exists. split.
  - intros (x & I & E). apply String.eqb_eq in E. now subst.
  - intros I. exists c. split; [assumption | apply String.eqb_refl].
Qed.

Lemma unseen_same seen seen' keys :
  (forall c, In c seen <-> In c seen') -> unseen seen keys = unseen seen' keys.
Proof.
  revert seen seen'. induction keys as [|c keys IH]; intros seen seen' S; simpl.
  - reflexivity.
  - assert (E : existsb (String.eqb c) seen = existsb (String.eqb c) seen').
    { apply eq_true_iff_eq. rewrite !existsb_eqb_in. apply S. }
    rewrite E. destruct (existsb (String.eqb c) seen').
    + now apply IH.
    + f_equal. apply IH. intros x. simpl. now rewrite S.
Qed.

Lemma unseen_in seen keys c : In c (unseen seen keys) -> In c keys /\ ~ In c seen.
Proof.
  revert seen. induction keys as [|k keys IH]; intros seen; simpl; [contradiction|].
  destruct (existsb (String.eqb k) seen) eqn:E.
  - intros I. destruct (IH _ I). split; [now right | assumption].
  - intros [<- | I].
    + split; [now left|]. rewrite <- existsb_eqb_in. congruence.
    + destruct (IH _ I) as (I1 & I2). split; [now right|].
      intros J. apply I2. now right.
Qed.

Lemma unseen_NoDup seen keys : NoDup (unseen seen keys).
Proof.
  revert seen. induction keys as [|k keys IH]; intros seen; simpl; [constructor|].
  destruct (existsb (String.eqb k) seen); [apply IH|].
  constructor; [|apply IH].
  intros I. apply unseen_in in I as (_ & N). apply N. now left.
Qed.

Lemma write_last (o : bag) c x y :
  own o c = None -> write (o ++ [(c, x)])%list c y = (o ++ [(c, y)])%list.
Proof.
  induction o as [|[k old] o IH]; simpl.
  - now rewrite String.eqb_refl.
  - destruct (k =? c); [discriminate|]. intros H. now rewrite IH.
Qed.

Lemma in_own (o : bag) c g : NoDup (map fst o) -> In (c, g) o -> own o c = Some g.
Proof.
  induction o as [|[k old] o IH]; simpl; [contradiction|].
  intros N [E | I].
  - injection E as -> ->. now rewrite String.eqb_refl.
  - inversion N as [|? ? X N']; subst.
    destruct (k =? c) eqn:E.
    + apply String.eqb_eq in E. subst k. exfalso. apply X.
      apply in_map_iff. now exists (c, g).
    + now apply IH.
Qed.



Section GroupingFacts.
Context {rt : Runtime}.

Lemma group_keyword_adds o k :
  is_nullish k = false ->
  existsb (String.eqb (category_key k)) object_prototype_keys = false ->
  group_keyword o k = inr (add_to_group o (category_key k) k).
Proof.
  intros N P. unfold group_keyword, add_to_group.
  rewrite (get_get_opt _ _ N). cbn [bind]. fold (category_key k).
  unfold read. destruct (own o (category_key k)) as [items|] eqn:O.
  - rewrite O. reflexivity.
  - rewrite P. rewrite own_write, String.eqb_refl.
    rewrite (write_absent _ _ _ O). now rewrite (write_last _ _ _ _ O).
Qed.

Lemma foldM_group_keyword ks o :
  Forall groupable ks -> foldM group_keyword ks o = inr (add_all o ks).
Proof.
  intros F. revert o. induction F as [|k ks (N & P) F IH]; intros o; simpl.
  - reflexivity.
  - rewrite (group_keyword_adds _ _ N P). cbn [bind]. apply IH.
Qed.

Lemma keys_add_all ks o :
  map fst (add_all o ks) =
  (map fst o ++ unseen (map fst o) (map category_key ks))%list.
Proof.
  revert o. induction ks as [|k ks IH]; intros o; simpl.
  - now rewrite app_nil_r.
  - rewrite IH. unfold add_to_group.
    destruct (own o (category_key k)) as [items|] eqn:O.
    + rewrite (keys_write_present _ _ _ _ O).
      assert (I : In (category_key k) (map fst o)) by (apply own_some_in; eauto).
      apply existsb_eqb_in in I. now rewrite I.
    + assert (I : ~ In (category_key k) (map fst o)) by (now apply own_none_not_in).
      rewrite <- existsb_eqb_in in I. apply not_true_is_false in I. rewrite I.
      rewrite map_app. simpl. rewrite <- app_assoc. simpl. do 2 f_equal.
      apply unseen_same. intros c. rewrite in_app_iff. simpl. tauto.
Qed.

Lemma group_of_add_to_group o c0 k c :
  group_of (add_to_group o c0 k) c =
  (group_of o c ++ if c0 =? c then [k] else [])%list.
Proof.
  unfold group_of, add_to_group.
  destruct (own o c0) as [items|] eqn:O.
  - rewrite own_write. destruct (c0 =? c) eqn:E.
    + apply String.eqb_eq in E. subst c0. now rewrite O.
    + now rewrite app_nil_r.
  - rewrite own_app. destruct (c0 =? c) eqn:E.
    + apply String.eqb_eq in E. subst c0. now rewrite O.
    + destruct (own o c); [now rewrite app_nil_r | reflexivity].
Qed.

Lemma group_of_add_all ks o c :
  group_of (add_all o ks) c =
  (group_of o c ++ filter (fun k => category_key k =? c) ks)%list.
Proof.
  revert o. induction ks as [|k ks IH]; intros o; simpl.
  - now rewrite app_nil_r.
  - rewrite IH, group_of_add_to_group, <- app_assoc.
    now destruct (category_key k =? c).
Qed.




End GroupingFacts.


Example keywords_b_then_1_text :
  website_keywordsList (rt := example_runtime)
    (VObj [("keywords", VArr keywords_b_then_1)]) =
  inr (nl ++ "**1** (1 mots-clés):" ++ nl ++ "   • sem" ++ nl ++
       nl ++ "**b** (1 mots-clés):" ++ nl ++ "   • seo").
Proof. reflexivity. Qed.


(** ** C9: a category named like a member of [Object.prototype] *)

Lemma in_insert_by_index {A : Type} (x y : N * A) l :
  In x (insert_by_index y l) <-> x = y \/ In x l.
Proof.
  induction l as [|z l IH]; simpl.
  - intuition.
  - destruct (fst y <=? fst z)%N; simpl; [intuition|].
    rewrite IH. intuition.
Qed.

Lemma in_sort_by_index {A : Type} (x : N * A) l :
  In x (sort_by_index l) <-> In x l.
Proof.
  induction l as [|y l IH]; simpl; [reflexivity|].
  rewrite in_insert_by_index, IH. intuition.
Qed.

Lemma in_indexed (o : bag) n e :
  In (n, e) (indexed o) <-> In e o /\ array_index (fst e) = Some n.
Proof.
  induction o as [|e' o IH]; simpl; [tauto|].
  destruct (array_index (fst e')) as [m|] eqn:E; simpl; rewrite IH.
  - split.
    + intros [[= -> ->] | (I & A)]; [now split; [left|] | now split; [right|]].
    + intros ([-> | I] & A); [left; congruence | now right].
  - split.
    + intros (I & A). now split; [right|].
    + intros ([-> | I] & A); [congruence | now split].
Qed.

Lemma in_Object_entries (o : bag) e : In e (Object_entries o) <-> In e o.
Proof.
  unfold Object_entries, named. rewrite in_app_iff, in_map_iff, filter_In. split.
  - intros [([n e'] & <- & I) | (I & _)]; [|assumption].
    apply in_sort_by_index, in_indexed in I. now destruct I.
  - intros I. destruct (array_index (fst e)) as [n|] eqn:A.
    + left. exists (n, e). split; [reflexivity|].
      apply in_sort_by_index, in_indexed. now split.
    + right. now split.
Qed.

Lemma own_in (o : bag) c g : own o c = Some g -> In (c, g) o.
Proof.
  induction o as [|[k old] o IH]; simpl; [discriminate|].
  destruct (k =? c) eqn:E.
  - apply String.eqb_eq in E. subst k. intros [= ->]. now left.
  - intros H. right. now apply IH.
Qed.

Section GroupMembership.
Context {rt : Runtime}.

(** Outside the names of [Object.prototype], the grouping is as C9 says:
    a keyword whose [category_name] is falsy goes to "Non catégorisé", every
    keyword is in the displayed group of its category, and in no other. *)
Lemma keywords_are_grouped_once result keywords :
  get result "keywords" = inr (VArr keywords) ->
  Forall groupable keywords ->
  exists byCategory,
    group_by_category result = inr byCategory /\
    forall k, In k keywords ->
      (truthy (get_opt k "category_name") = false ->
       category_key k = "Non catégorisé") /\
      (exists group,
         In (category_key k, group) (Object_entries byCategory) /\ In k group) /\
      (forall catName group,
         In (catName, group) (Object_entries byCategory) -> In k group ->
         catName = category_key k).
Proof.
  intros K F. exists (add_all [] keywords). split.
  { unfold group_by_category. rewrite K. cbn [bind array_method ret].
    now apply foldM_group_keyword. }
  pose proof (keys_add_all keywords []) as Keys. simpl in Keys.
  assert (N : NoDup (map fst (add_all [] keywords)))
    by (rewrite Keys; apply unseen_NoDup).
  intros k I. split; [|split].
  - intros T. unfold category_key, js_or. now rewrite T.
  - pose proof (group_of_add_all keywords [] (category_key k)) as G.
    simpl in G. unfold group_of in G.
    assert (J : In k (filter (fun k' => category_key k' =? category_key k) keywords)).
    { apply filter_In. split; [assumption | apply String.eqb_refl]. }
    destruct (own (add_all [] keywords) (category_key k)) as [group|] eqn:O.
    + exists group. split; [|now rewrite G].
      apply in_Object_entries. now apply own_in.
    + rewrite <- G in J. contradiction.
  - intros c g E M. rewrite in_Object_entries in E.
    pose proof (group_of_add_all keywords [] c) as G. simpl in G.
    unfold group_of in G. rewrite (in_own _ _ _ N E) in G. subst g.
    apply filter_In in M as (_ & M). apply String.eqb_eq in M. now subst.
Qed.

(** C9, at the failing input. A keyword in the category "constructor" makes
    [list_keywords_by_website] throw while grouping: the caller gets the
    error report, and no group is displayed. *)
Theorem constructor_category_is_not_grouped :
  group_by_category (VObj [("keywords", VArr [keyword_in "maison" (VStr "constructor")])]) =
    inl (TypeError (NotAFunction "byCategory[catName].push")) /\
  call_tool Server_2_0_0 (answering constructor_site)
    (mkParams "list_keywords_by_website" site_7) =
    (mkReport ("❌ **Erreur**: " ++
               fault_message (NotAFunction "byCategory[catName].push")) true,
     [mkRequest "https://referencime.fr/wp-json/easy-links/v1/ai/list-keywords-by-website"
                "Bearer secret"
                (VObj [("website_id", VNum 7); ("include_metrics", VBool false)])]).
Proof. split; reflexivity. Qed.

End GroupMembership.


(** * Further properties of the code *)

Section GatewayProperties.
Context {rt : Runtime}.

(** ** The API key *)

Lemma getApiKey_inr w apiKey :
  getApiKey w = inr apiKey <->
  REFERENCIME_API_KEY w = Some apiKey /\ apiKey <> "".
Proof.
  unfold getApiKey. destruct (REFERENCIME_API_KEY w) as [k|].
  - destruct (k =? "") eqn:E.
    + apply String.eqb_eq in E. subst k. split; [discriminate|].
      intros [H N]. injection H as <-. now elim N.
    + apply String.eqb_neq in E. split.
      * intros H. apply inr_inj in H. subst k. now split.
      * intros [H _]. injection H as <-. reflexivity.
  - split; [discriminate | intros [H _]; discriminate].
Qed.

Lemma getApiKey_inl w e :
  getApiKey w = inl e <->
  e = Error key_not_configured /\
  (REFERENCIME_API_KEY w = None \/ REFERENCIME_API_KEY w = Some "").
Proof.
  unfold getApiKey, key_not_configured.
  destruct (REFERENCIME_API_KEY w) as [k|].
  - destruct (k =? "") eqn:E.
    + apply String.eqb_eq in E. subst k. split.
      * intros H. split; [congruence | now right].
      * intros [-> _]. reflexivity.
    + apply String.eqb_neq in E. split; [discriminate|].
      intros [_ [H|H]]; [discriminate | congruence].
  - split.
    + intros H. split; [congruence | now left].
    + intros [-> _]. reflexivity.
Qed.

(** X1. A call to a known tool with valid arguments, made while
    [REFERENCIME_API_KEY] is unset or empty, is answered with the flagged
    report of [getApiKey]'s error, and no HTTP request is issued. *)
Theorem missing_key_is_reported sv w p t data :
  assoc (name p) (tools sv) = Some t ->
  safeParse (inputSchema t) (arguments p) = inr data ->
  REFERENCIME_API_KEY w = None \/ REFERENCIME_API_KEY w = Some "" ->
  call_tool sv w p =
    (mkReport ("❌ **Erreur**: " ++ key_not_configured) true, []).
Proof.
  intros K V A.
  assert (G : getApiKey w = inl (Error key_not_configured)).
  { apply getApiKey_inl. now split. }
  unfold call_tool, handle, run_tool, callReferencimeAPI.
  rewrite K, V, G. reflexivity.
Qed.

(** ** The requests a call issues *)

Lemma try_catch_log r : snd (try_catch r) = snd r.
Proof. destruct r as [[e|t] log]; reflexivity. Qed.

Lemma call_tool_log sv w p :
  snd (call_tool sv w p) =
    match outbound sv w p with
    | Some (_, _, rq) => [rq]
    | None => []
    end.
Proof.
  destruct (outbound sv w p) as [[[t data] rq]|] eqn:O.
  - rewrite (call_tool_outbound _ _ _ _ _ _ O). apply try_catch_log.
  - unfold call_tool. rewrite try_catch_log.
    unfold outbound in O. unfold handle, run_tool, callReferencimeAPI.
    destruct (assoc (name p) (tools sv)) as [t|] eqn:K; [|reflexivity].
    destruct (safeParse (inputSchema t) (arguments p)) as [issues|data];
      [reflexivity|].
    destruct (getApiKey w) as [e|apiKey]; [reflexivity|].
    destruct (endpoint_declared _ _ _ K) as [endpoint P].
    rewrite P in O. discriminate.
Qed.

(** X2. A call issues at most one HTTP request, whatever the backend
    answers; it issues one exactly when the tool is known, the arguments
    parse and the key is set, and that request is a POST to the base URL
    followed by the tool's endpoint, with the key as bearer token and the
    parsed arguments as body. *)
Theorem requests_are_issued_once sv w p :
  (List.length (snd (call_tool sv w p)) <= 1)%nat /\
  forall rq,
    In rq (snd (call_tool sv w p)) <->
    exists t data apiKey endpoint,
      assoc (name p) (tools sv) = Some t /\
      safeParse (inputSchema t) (arguments p) = inr data /\
      getApiKey w = inr apiKey /\
      endpoint_of sv (name p) = Some endpoint /\
      rq = mkRequest (baseURL ++ endpoint) ("Bearer " ++ apiKey) data.
Proof.
  rewrite call_tool_log. unfold outbound.
  destruct (assoc (name p) (tools sv)) as [t|] eqn:K.
  2:{ split; [simpl; lia|]. intros rq. split; [intros []|].
      intros (t & data & apiKey & endpoint & F & _). discriminate. }
  destruct (safeParse (inputSchema t) (arguments p)) as [issues|data] eqn:V.
  1:{ split; [simpl; lia|]. intros rq. split; [intros []|].
      intros (t' & data & apiKey & endpoint & F & F' & _).
      apply Some_inj in F. subst t'. rewrite V in F'. discriminate. }
  destruct (getApiKey w) as [e|apiKey] eqn:A.
  1:{ split; [simpl; lia|]. intros rq. split; [intros []|].
      intros (t' & data' & apiKey & endpoint & _ & _ & F & _). discriminate. }
  destruct (endpoint_declared _ _ _ K) as [endpoint P]. rewrite P.
  split; [simpl; lia|]. intros rq. split.
  - intros [<-|[]]. now exists t, data, apiKey, endpoint.
  - intros (t' & data' & apiKey' & endpoint' & F1 & F2 & F3 & F4 & ->).
    apply Some_inj in F1. subst t'. rewrite V in F2.
    apply inr_inj in F2. apply inr_inj in F3. apply Some_inj in F4.
    subst. now left.
Qed.

End GatewayProperties.

Section EndpointProperties.
Context {rt : Runtime}.

(** ** Endpoints and advertised tools *)

Lemma endpoint_of_tools sv n :
  match assoc n (tools sv) with
  | Some _ => endpoint_of sv n = Some ("/ai/" ++ hyphenate n)
  | None => endpoint_of sv n = None
  end.
Proof.
  destruct sv; unfold endpoint_of, endpoints, tools; cbn [assoc];
    split_goal_on_name n; reflexivity.
Qed.

Lemma endpoint_of_injective sv n n' e :
  endpoint_of sv n = Some e -> endpoint_of sv n' = Some e -> n = n'.
Proof.
  intros H H'.
  destruct sv; unfold endpoint_of, endpoints in H, H'; cbn [assoc] in H, H';
    split_on_name n; try discriminate; split_on_name n'; try discriminate;
    try reflexivity; rewrite <- H in H'; discriminate.
Qed.

(** X3. The gateway's switch and the handler's switch know the same tool
    names; the endpoint of a tool is "/ai/" followed by its name with the
    underscores turned into hyphens; and no two tools share an endpoint.
    So the gateway's own "Outil inconnu" error is never reached from the
    handler. *)
Theorem endpoints_follow_tool_names sv :
  (forall n, (exists t, assoc n (tools sv) = Some t) <->
             endpoint_of sv n = Some ("/ai/" ++ hyphenate n)) /\
  (forall n, assoc n (tools sv) = None <-> endpoint_of sv n = None) /\
  (forall n n' e, endpoint_of sv n = Some e -> endpoint_of sv n' = Some e ->
                  n = n').
Proof.
  split; [|split].
  - intros n. pose proof (endpoint_of_tools sv n) as H.
    destruct (assoc n (tools sv)) as [t|].
    + split; [now intros _ | intros _; now exists t].
    + rewrite H. split; [intros [t F]; discriminate | discriminate].
  - intros n. pose proof (endpoint_of_tools sv n) as H.
    destruct (assoc n (tools sv)) as [t|].
    + rewrite H. split; discriminate.
    + now split.
  - apply endpoint_of_injective.
Qed.

Lemma advertised_dispatch sv a :
  In a (list_tools sv) ->
  exists t, assoc (advertised_name a) (tools sv) = Some t /\
            inputSchema t = advertised_schema a.
Proof.
  destruct sv; unfold list_tools; cbn [In]; intros H;
    repeat (destruct H as [<-|H]; [eexists; split; reflexivity|]);
    destruct H.
Qed.

Lemma assoc_in {A : Type} n (l : list (string * A)) a :
  assoc n l = Some a -> In (n, a) l.
Proof.
  induction l as [|[k b] l IH]; simpl; [discriminate|].
  destruct (k =? n) eqn:E.
  - apply String.eqb_eq in E. intros H. apply Some_inj in H. subst. now left.
  - intros H. right. now apply IH.
Qed.

(** The advertised tools are the served ones, in the same order and with the
    same schemas. *)
Lemma advertised_as_served sv :
  map (fun a => (advertised_name a, advertised_schema a)) (list_tools sv) =
  map (fun e => (fst e, inputSchema (snd e))) (tools sv).
Proof. destruct sv; reflexivity. Qed.

Lemma dispatch_advertised sv n t :
  assoc n (tools sv) = Some t ->
  exists a, In a (list_tools sv) /\ advertised_name a = n /\
            advertised_schema a = inputSchema t.
Proof.
  intros H. apply assoc_in in H.
  apply (in_map (fun e => (fst e, inputSchema (snd e)))) in H.
  rewrite <- advertised_as_served in H. cbn [fst snd] in H.
  apply in_map_iff in H. destruct H as (a & E & I).
  exists a. split; [exact I|]. now inversion E.
Qed.

(** X4. Every tool the [ListTools] handler advertises is served by the
    [CallTool] handler under the schema it is advertised with: called with
    arguments that parse under that schema, while the key is set, it issues
    exactly one request, to the endpoint named after the tool, carrying the
    parsed arguments. *)
Theorem advertised_tools_are_served sv w a args data apiKey :
  In a (list_tools sv) ->
  safeParse (advertised_schema a) args = inr data ->
  getApiKey w = inr apiKey ->
  snd (call_tool sv w (mkParams (advertised_name a) args)) =
    [mkRequest (baseURL ++ "/ai/" ++ hyphenate (advertised_name a))
               ("Bearer " ++ apiKey) data].
Proof.
  intros I V A. destruct (advertised_dispatch _ _ I) as (t & K & S).
  rewrite call_tool_log. unfold outbound. cbn [name arguments].
  pose proof (endpoint_of_tools sv (advertised_name a)) as P.
  rewrite K in P. rewrite K, S, V, A, P. reflexivity.
Qed.

(** X5. A call whose tool name is not among the advertised ones is answered
    with the flagged report "Outil inconnu" naming it, and issues no
    request. *)
Theorem unadvertised_tool_is_unknown sv w p :
  ~ In (name p) (map advertised_name (list_tools sv)) ->
  call_tool sv w p =
    (mkReport ("❌ **Erreur**: Outil inconnu: " ++ name p) true, []).
Proof.
  intros N.
  assert (K : assoc (name p) (tools sv) = None).
  { destruct (assoc (name p) (tools sv)) as [t|] eqn:K; [|reflexivity].
    destruct (dispatch_advertised _ _ _ K) as (a & I & E & _).
    elim N. rewrite <- E. now apply in_map. }
  unfold call_tool, handle. rewrite K. reflexivity.
Qed.

End EndpointProperties.

Lemma missing_key_is_reported_witness :
  call_tool (rt := example_runtime) Server_2_0_0
    (mkWorld None (fun _ => inl (Rejected "fetch failed")))
    (mkParams "list_websites_by_user" no_arguments) =
  (mkReport ("❌ **Erreur**: " ++ key_not_configured) true, []).
Proof.
  apply (missing_key_is_reported (rt := example_runtime) Server_2_0_0
           (mkWorld None (fun _ => inl (Rejected "fetch failed")))
           (mkParams "list_websites_by_user" no_arguments)
           (mkTool ListWebsitesByUserArgsSchema
                   (format_list_websites (rt := example_runtime) Server_2_0_0))
           (VObj []));
    [reflexivity | reflexivity | left; reflexivity].
Defined.

Lemma advertised_tools_are_served_witness :
  snd (call_tool (rt := example_runtime) Server_1_1_3 (answering empty_success)
         (mkParams "detect_ranking_changes" site_7)) =
  [mkRequest
     (baseURL ++ "/ai/" ++ hyphenate "detect_ranking_changes")
     "Bearer secret"
     (VObj [("website_id", VNum 7); ("days", VNum 7); ("threshold", VNum 3)])].
Proof.
  apply (advertised_tools_are_served (rt := example_runtime) Server_1_1_3
           (answering empty_success)
           (mkAdvertised "detect_ranking_changes"
              "Détection automatique des changements significatifs de positions SERP avec alertes et recommandations d'actions prioritaires."
              RankingChangesArgsSchema)
           site_7
           (VObj [("website_id", VNum 7); ("days", VNum 7); ("threshold", VNum 3)])
           "secret");
    [cbn [list_tools In]; tauto | reflexivity | reflexivity].
Defined.

Lemma unadvertised_tool_is_unknown_witness :
  call_tool (rt := example_runtime) Server_2_0_0 (answering empty_success)
    (mkParams "list_user_websites" no_arguments) =
  (mkReport "❌ **Erreur**: Outil inconnu: list_user_websites" true, []).
Proof.
  apply (unadvertised_tool_is_unknown (rt := example_runtime) Server_2_0_0
           (answering empty_success)
           (mkParams "list_user_websites" no_arguments)).
  cbn [name list_tools map advertised_name In].
  intros H. repeat (destruct H as [H|H]; [discriminate|]). destruct H.
Defined.

Section EntryPointProperties.
Context {rt : Runtime}.

(** ** The entry point *)

Lemma start_requested (argv : list string) :
  (2 <? List.length argv)%nat && (nth 2 argv "" =? "start") = true <->
  nth_error argv 2 = Some "start".
Proof.
  destruct argv as [|a0 [|a1 [|a2 rest]]]; simpl;
    try (split; discriminate).
  rewrite String.eqb_eq. split; [now intros -> | intros H; now apply Some_inj in H].
Qed.

Lemma entry_point_start sv argv w connect :
  nth_error argv 2 = Some "start" ->
  entry_point sv argv w connect = runServer sv w connect.
Proof.
  intros H. apply start_requested in H. unfold entry_point. now rewrite H.
Qed.

Lemma entry_point_usage sv argv w connect :
  nth_error argv 2 <> Some "start" ->
  entry_point sv argv w connect = mkRun usage [] (Some 0%Z) false.
Proof.
  intros H. unfold entry_point.
  destruct ((2 <? List.length argv)%nat && (nth 2 argv "" =? "start")) eqn:E;
    [|reflexivity].
  apply start_requested in E. contradiction.
Qed.

(** X6. The process serves tool calls exactly when it was started with
    "start" as its first argument, the API key is set, and the connection to
    the transport succeeded.  Asked to start, it exits with status 1 exactly
    when the key is missing or the connection failed, and it never writes to
    the standard output, which the transport owns.  Started any other way, it
    prints the usage text and ends with status 0 without looking at the
    key. *)
Theorem entry_point_modes sv argv w connect :
  (serving (entry_point sv argv w connect) = true <->
   nth_error argv 2 = Some "start" /\
   (exists apiKey, getApiKey w = inr apiKey) /\
   (exists u, connect = inr u)) /\
  (exit_code (entry_point sv argv w connect) = Some 1%Z <->
   nth_error argv 2 = Some "start" /\
   ((exists e, getApiKey w = inl e) \/ (exists e, connect = inl e))) /\
  (nth_error argv 2 = Some "start" ->
   stdout (entry_point sv argv w connect) = []) /\
  (nth_error argv 2 <> Some "start" ->
   entry_point sv argv w connect = mkRun usage [] (Some 0%Z) false).
Proof.
  destruct (string_option_dec (nth_error argv 2) (Some "start")) as [S|S].
  - rewrite (entry_point_start _ _ _ _ S). unfold runServer.
    destruct (getApiKey w) as [e|apiKey]; [|destruct connect as [e|u]];
      cbn [serving exit_code stdout].
    + split; [|split; [|split]].
      * split; [discriminate|]. intros (_ & [k F] & _). discriminate.
      * split; [|reflexivity]. intros _. split; [exact S|]. left. now exists e.
      * reflexivity.
      * intros N. contradiction.
    + split; [|split; [|split]].
      * split; [discriminate|]. intros (_ & _ & [u F]). discriminate.
      * split; [|reflexivity]. intros _. split; [exact S|]. right. now exists e.
      * reflexivity.
      * intros N. contradiction.
    + split; [|split; [|split]].
      * split; [|reflexivity]. intros _. split; [exact S|].
        split; [now exists apiKey | now exists u].
      * split; [discriminate|]. intros (_ & [[e F]|[e F]]); discriminate.
      * reflexivity.
      * intros N. contradiction.
  - rewrite (entry_point_usage _ _ _ _ S). cbn [serving exit_code stdout].
    split; [|split; [|split]].
    + split; [discriminate|]. intros (F & _). contradiction.
    + split; [discriminate|]. intros (F & _). contradiction.
    + intros F. contradiction.
    + reflexivity.
Qed.

(** X7. Once the process is serving, the key check of every later call
    succeeds in the same environment: a call to a known tool with valid
    arguments issues its request, with the environment's key as bearer
    token. *)
Theorem serving_server_reaches_the_backend sv argv w connect p t data :
  serving (entry_point sv argv w connect) = true ->
  assoc (name p) (tools sv) = Some t ->
  safeParse (inputSchema t) (arguments p) = inr data ->
  exists apiKey,
    REFERENCIME_API_KEY w = Some apiKey /\
    snd (call_tool sv w p) =
      [mkRequest (baseURL ++ "/ai/" ++ hyphenate (name p))
                 ("Bearer " ++ apiKey) data].
Proof.
  intros S K V.
  assert (A : exists apiKey, getApiKey w = inr apiKey).
  { unfold entry_point in S.
    destruct ((2 <? List.length argv)%nat && (nth 2 argv "" =? "start"));
      [|discriminate].
    unfold runServer in S. destruct (getApiKey w) as [e|apiKey];
      [discriminate | now exists apiKey]. }
  destruct A as [apiKey A]. exists apiKey.
  split; [now apply getApiKey_inr in A|].
  rewrite call_tool_log. unfold outbound.
  pose proof (endpoint_of_tools sv (name p)) as P. rewrite K in P.
  rewrite K, V, A, P. reflexivity.
Qed.

End EntryPointProperties.

Lemma serving_server_reaches_the_backend_witness :
  exists apiKey,
    REFERENCIME_API_KEY (answering empty_success) = Some apiKey /\
    snd (call_tool (rt := example_runtime) Server_2_0_0 (answering empty_success)
           (mkParams "list_categories_by_website" site_7)) =
      [mkRequest (baseURL ++ "/ai/" ++ hyphenate "list_categories_by_website")
                 ("Bearer " ++ apiKey) site_7].
Proof.
  apply (serving_server_reaches_the_backend (rt := example_runtime) Server_2_0_0
           ["node"; "start.js"; "start"] (answering empty_success) (inr tt)
           (mkParams "list_categories_by_website" site_7)
           (mkTool ListCategoriesByWebsiteArgsSchema
                   (format_list_categories_by_website (rt := example_runtime)))
           site_7);
    reflexivity.
Defined.

Section ReportProperties.
Context {rt : Runtime}.

(** ** Flagged and unflagged reports *)

Lemma handle_without_outbound sv w p :
  outbound sv w p = None -> exists e, handle sv w p = (inl e, []).
Proof.
  unfold outbound, handle, run_tool, callReferencimeAPI. intros O.
  destruct (assoc (name p) (tools sv)) as [t|] eqn:K; [|eexists; reflexivity].
  destruct (safeParse (inputSchema t) (arguments p)) as [issues|data];
    [eexists; reflexivity|].
  destruct (getApiKey w) as [e|apiKey]; [eexists; reflexivity|].
  destruct (endpoint_declared _ _ _ K) as [endpoint P].
  rewrite P in O. discriminate.
Qed.

(** X8. The report of a call is unflagged exactly when every stage went
    through: the tool is known, the arguments parse, the key is set, the
    backend's answer unwraps to data, and the formatter returns; the text of
    the report is then the formatter's text.  In every other case the
    report is flagged. *)
Theorem unflagged_report_iff_success sv w p text :
  fst (call_tool sv w p) = mkReport text false <->
  exists t data rq resp result,
    outbound sv w p = Some (t, data, rq) /\
    fetch w rq = inr resp /\
    unwrap resp = inr result /\
    format t data result = inr text.
Proof.
  split.
  - intros H. destruct (outbound sv w p) as [[[t data] rq]|] eqn:O.
    + rewrite (call_tool_outbound _ _ _ _ _ _ O) in H.
      destruct (fetch w rq) as [e|resp] eqn:R; [discriminate H|].
      cbn [bind] in H.
      destruct (unwrap resp) as [e|result] eqn:U; [discriminate H|].
      cbn [bind] in H.
      destruct (format t data result) as [e|text'] eqn:F; [discriminate H|].
      unfold try_catch, text_report in H. cbn [fst] in H.
      injection H as ->.
      exists t, data, rq, resp, result. now repeat split.
    + destruct (handle_without_outbound _ _ _ O) as [e E].
      unfold call_tool in H. rewrite E in H. discriminate H.
  - intros (t & data & rq & resp & result & O & R & U & F).
    rewrite (call_tool_outbound _ _ _ _ _ _ O), R. cbn [bind]. rewrite U.
    cbn [bind]. rewrite F. reflexivity.
Qed.

Lemma formatters_read_the_result sv n t data result :
  assoc n (tools sv) = Some t ->
  is_nullish result = true ->
  exists e, format t data result = inl e.
Proof.
  intros K N.
  assert (G : forall p, get result p = inl (TypeError (ReadOfNullish result p))).
  { intros q. destruct result; try discriminate N; reflexivity. }
  destruct sv; cbn [assoc tools] in K; split_on_name n; try discriminate;
    apply Some_inj in K; subst t; cbn [format].
  - unfold format_list_websites. rewrite G. eexists; reflexivity.
  - unfold format_list_categories_by_website. rewrite G. eexists; reflexivity.
  - unfold format_list_keywords_by_website, website_keywordsList,
      group_by_category. rewrite G. eexists; reflexivity.
  - unfold format_keywords_by_categories. rewrite G. eexists; reflexivity.
  - unfold format_summary_2_0_0. rewrite G. eexists; reflexivity.
  - unfold format_analyze_keyword_performance.
    destruct (get data "keyword") as [e|keyword]; [eexists; reflexivity|].
    cbn [bind].
    destruct (call_toUpperCase keyword) as [e|title]; [eexists; reflexivity|].
    cbn [bind]. rewrite G. eexists; reflexivity.
  - unfold format_get_position_evolution. rewrite G. eexists; reflexivity.
  - unfold format_compare_keywords_performance. rewrite G. eexists; reflexivity.
  - unfold format_summary_1_1_3. rewrite G. eexists; reflexivity.
  - unfold format_detect_ranking_changes. rewrite G. eexists; reflexivity.
  - unfold format_list_websites. rewrite G. eexists; reflexivity.
  - unfold format_keywords_by_categories. rewrite G. eexists; reflexivity.
Qed.

(** X9. An answer of the backend that says success but carries no [data]
    (or a null one) never yields a text: whatever the tool, its formatter
    throws, and the caller gets a flagged report after the one request. *)
Theorem answer_without_data_is_reported sv w p t data rq resp envelope :
  outbound sv w p = Some (t, data, rq) ->
  fetch w rq = inr resp ->
  ok resp = true ->
  json resp = inr (VObj envelope) ->
  truthy (lookup "success" envelope) = true ->
  is_nullish (lookup "data" envelope) = true ->
  exists e,
    format t data (lookup "data" envelope) = inl e /\
    call_tool sv w p = (mkReport ("❌ **Erreur**: " ++ message e) true, [rq]).
Proof.
  intros O R H J S N.
  assert (K : assoc (name p) (tools sv) = Some t).
  { unfold outbound in O.
    destruct (assoc (name p) (tools sv)) as [t'|]; [|discriminate].
    destruct (safeParse (inputSchema t') (arguments p)); [discriminate|].
    destruct (getApiKey w); [discriminate|].
    destruct (endpoint_of sv (name p)); [|discriminate].
    apply Some_inj in O. congruence. }
  destruct (formatters_read_the_result _ _ _ data _ K N) as [e F].
  exists e. split; [exact F|].
  rewrite (call_tool_outbound _ _ _ _ _ _ O), R. cbn [bind].
  unfold unwrap. rewrite H, J. cbn [negb bind get ret]. rewrite S.
  cbn [negb bind get ret]. rewrite F. reflexivity.
Qed.

End ReportProperties.

Lemma answer_without_data_is_reported_witness :
  exists e,
    format_list_websites (rt := example_runtime) Server_2_0_0 (VObj [])
      (lookup "data" [("success", VBool true)]) = inl e /\
    call_tool (rt := example_runtime) Server_2_0_0
      (answering (mkResponse 200 "OK" (inr (VObj [("success", VBool true)]))))
      (mkParams "list_websites_by_user" no_arguments) =
    (mkReport ("❌ **Erreur**: " ++ message (rt := example_runtime) e) true,
     [mkRequest (baseURL ++ "/ai/list-websites-by-user") "Bearer secret" (VObj [])]).
Proof.
  apply (answer_without_data_is_reported (rt := example_runtime) Server_2_0_0
           (answering (mkResponse 200 "OK" (inr (VObj [("success", VBool true)]))))
           (mkParams "list_websites_by_user" no_arguments)
           (mkTool ListWebsitesByUserArgsSchema
                   (format_list_websites (rt := example_runtime) Server_2_0_0))
           (VObj [])
           (mkRequest (baseURL ++ "/ai/list-websites-by-user") "Bearer secret" (VObj []))
           (mkResponse 200 "OK" (inr (VObj [("success", VBool true)])))
           [("success", VBool true)]);
    reflexivity.
Defined.

Section GroupingProperties.
Context {rt : Runtime}.

(** ** Grouping a flat list of keywords *)

Lemma groupable_or_not k : groupable k \/ ~ groupable k.
Proof.
  unfold groupable. destruct (is_nullish k).
  - right. intros [F _]. discriminate.
  - destruct (existsb (String.eqb (category_key k)) object_prototype_keys).
    + right. intros [_ F]. discriminate.
    + left. now split.
Qed.

Lemma first_ungroupable ks :
  Forall groupable ks \/
  exists before k after,
    ks = (before ++ k :: after)%list /\ Forall groupable before /\ ~ groupable k.
Proof.
  induction ks as [|k ks [IH | (before & k' & after & -> & F & N)]].
  - left. constructor.
  - destruct (groupable_or_not k) as [G|G].
    + left. now constructor.
    + right. exists [], k, ks. now repeat split.
  - destruct (groupable_or_not k) as [G|G].
    + right. exists (k :: before), k', after. repeat split; [|assumption].
      now constructor.
    + right. exists [], k, (before ++ k' :: after)%list. now repeat split.
Qed.

Lemma shadows_nothing_add_all ks :
  Forall groupable ks -> shadows_nothing (add_all [] ks).
Proof.
  intros F c I. pose proof (keys_add_all ks []) as Keys. simpl in Keys.
  rewrite Keys in I. apply unseen_in in I as (I & _).
  apply in_map_iff in I as (k & <- & I).
  rewrite Forall_forall in F. now destruct (F k I).
Qed.

Lemma group_keyword_fault o k :
  shadows_nothing o -> ~ groupable k -> group_keyword o k = inl (grouping_fault k).
Proof.
  intros S N. unfold group_keyword, grouping_fault.
  destruct (is_nullish k) eqn:U.
  - destruct k; try discriminate U; reflexivity.
  - rewrite (get_get_opt _ _ U). cbn [bind]. fold (category_key k).
    destruct (existsb (String.eqb (category_key k)) object_prototype_keys) eqn:P.
    2:{ elim N. now split. }
    assert (O : own o (category_key k) = None).
    { destruct (own o (category_key k)) as [items|] eqn:O; [|reflexivity].
      assert (I : In (category_key k) (map fst o)) by (apply own_some_in; eauto).
      apply S in I. congruence. }
    unfold read. rewrite O, P. cbn iota. rewrite O. reflexivity.
Qed.

Lemma foldM_app {A B : Type} (f : B -> A -> exn + B) (l l' : list A) (b : B) :
  foldM f (l ++ l')%list b = let* b' := foldM f l b in foldM f l' b'.
Proof.
  revert b. induction l as [|a l IH]; intros b; simpl; [reflexivity|].
  destruct (f b a) as [e|b']; simpl; [reflexivity | apply IH].
Qed.

Lemma grouping_fails_at result before k after :
  get result "keywords" = inr (VArr (before ++ k :: after)%list) ->
  Forall groupable before -> ~ groupable k ->
  group_by_category result = inl (grouping_fault k).
Proof.
  intros K F N. unfold group_by_category. rewrite K.
  cbn [bind array_method ret]. rewrite foldM_app.
  rewrite (foldM_group_keyword _ _ F). cbn [bind foldM].
  rewrite (group_keyword_fault _ _ (shadows_nothing_add_all _ F) N).
  reflexivity.
Qed.

Lemma grouping_succeeds result keywords byCategory :
  get result "keywords" = inr (VArr keywords) ->
  group_by_category result = inr byCategory ->
  Forall groupable keywords /\ byCategory = add_all [] keywords.
Proof.
  intros K G.
  destruct (first_ungroupable keywords) as [F | (before & k & after & -> & F & N)].
  - split; [assumption|]. unfold group_by_category in G. rewrite K in G.
    cbn [bind array_method ret] in G.
    rewrite (foldM_group_keyword _ _ F) in G. now apply inr_inj in G.
  - rewrite (grouping_fails_at _ _ _ _ K F N) in G. discriminate.
Qed.


End GroupingProperties.


(** ** The groups hold the keywords, each once *)

Lemma insert_by_index_permutation {A : Type} (x : N * A) l :
  Permutation (insert_by_index x l) (x :: l).
Proof.
  induction l as [|y l IH]; simpl; [reflexivity|].
  destruct (fst x <=? fst y)%N; [reflexivity|].
  rewrite IH. apply perm_swap.
Qed.

Lemma sort_by_index_permutation {A : Type} (l : list (N * A)) :
  Permutation (sort_by_index l) l.
Proof.
  induction l as [|x l IH]; simpl; [reflexivity|].
  rewrite insert_by_index_permutation. now constructor.
Qed.

Lemma indexed_named_permutation (o : bag) :
  Permutation (map snd (indexed o) ++ named o)%list o.
Proof.
  induction o as [|e o IH]; simpl; [reflexivity|].
  destruct (array_index (fst e)); simpl.
  - now constructor.
  - rewrite <- Permutation_middle. now constructor.
Qed.

Lemma Object_entries_permutation (o : bag) : Permutation (Object_entries o) o.
Proof.
  unfold Object_entries.
  rewrite (Permutation_map snd (sort_by_index_permutation (indexed o))).
  apply indexed_named_permutation.
Qed.

Lemma write_items (o : bag) c items k :
  own o c = Some items ->
  Permutation (flat_map snd (write o c (items ++ [k])%list))
              (flat_map snd o ++ [k])%list.
Proof.
  induction o as [|[c' old] o IH]; simpl; [discriminate|].
  destruct (c' =? c).
  - intros H. apply Some_inj in H. subst old. simpl.
    rewrite <- !app_assoc. apply Permutation_app_head, Permutation_app_comm.
  - intros H. simpl. rewrite (IH H). now rewrite app_assoc.
Qed.

Lemma add_to_group_items (o : bag) c k :
  Permutation (flat_map snd (add_to_group o c k)) (flat_map snd o ++ [k])%list.
Proof.
  unfold add_to_group. destruct (own o c) as [items|] eqn:O.
  - now apply write_items.
  - rewrite flat_map_app. simpl. reflexivity.
Qed.

Section PartitionProperties.
Context {rt : Runtime}.

Lemma add_all_items ks (o : bag) :
  Permutation (flat_map snd (add_all o ks)) (flat_map snd o ++ ks)%list.
Proof.
  revert o. induction ks as [|k ks IH]; intros o; simpl.
  - now rewrite app_nil_r.
  - rewrite IH, add_to_group_items, <- app_assoc. reflexivity.
Qed.

Lemma write_nonempty (o : bag) c items :
  Forall (fun entry => snd entry <> []) o -> items <> [] ->
  Forall (fun entry => snd entry <> []) (write o c items).
Proof.
  intros F N. induction F as [|[c' old] o P F IH]; simpl.
  - now repeat constructor.
  - destruct (c' =? c); constructor; assumption.
Qed.

Lemma add_all_nonempty ks (o : bag) :
  Forall (fun entry => snd entry <> []) o ->
  Forall (fun entry => snd entry <> []) (add_all o ks).
Proof.
  revert o. induction ks as [|k ks IH]; intros o F; simpl; [assumption|].
  apply IH. unfold add_to_group. destruct (own o (category_key k)) as [items|].
  - apply write_nonempty; [assumption|]. now destruct items.
  - apply Forall_app. split; [assumption|]. now repeat constructor.
Qed.

(** X11. When the grouping succeeds, the displayed groups partition the
    backend's list: put end to end they hold the keywords, each exactly as
    often as it was received; no two groups have the same name; and no
    group is empty. *)
Theorem groups_partition_the_keywords result keywords byCategory :
  get result "keywords" = inr (VArr keywords) ->
  group_by_category result = inr byCategory ->
  Permutation (flat_map snd (Object_entries byCategory)) keywords /\
  NoDup (map fst (Object_entries byCategory)) /\
  Forall (fun entry => snd entry <> []) (Object_entries byCategory).
Proof.
  intros K G. destruct (grouping_succeeds _ _ _ K G) as (F & ->).
  pose proof (Object_entries_permutation (add_all [] keywords)) as E.
  split; [|split].
  - rewrite (Permutation_flat_map snd E). apply (add_all_items keywords []).
  - apply (Permutation_NoDup (Permutation_map fst (Permutation_sym E))).
    pose proof (keys_add_all keywords []) as Keys. simpl in Keys.
    rewrite Keys. apply unseen_NoDup.
  - apply (Permutation_Forall (Permutation_sym E)).
    apply add_all_nonempty. constructor.
Qed.

End PartitionProperties.

Lemma groups_partition_the_keywords_witness :
  Permutation
    (flat_map snd
       (Object_entries
          [("b", [keyword_in "seo" (VStr "b")]);
           ("1", [keyword_in "sem" (VStr "1")])]))
    keywords_b_then_1 /\
  NoDup (map fst
           (Object_entries
              [("b", [keyword_in "seo" (VStr "b")]);
               ("1", [keyword_in "sem" (VStr "1")])])) /\
  Forall (fun entry => snd entry <> [])
         (Object_entries
            [("b", [keyword_in "seo" (VStr "b")]);
             ("1", [keyword_in "sem" (VStr "1")])]).
Proof.
  apply (groups_partition_the_keywords (rt := example_runtime)
           (VObj [("keywords", VArr keywords_b_then_1)]) keywords_b_then_1
           [("b", [keyword_in "seo" (VStr "b")]);
            ("1", [keyword_in "sem" (VStr "1")])]).
  - reflexivity.
  - vm_compute. reflexivity.
Defined.

(** ** Keywords by categories: what the formatter needs *)


Lemma filterM_succeeds {A : Type} (f : A -> exn + bool) l :
  (exists l', filterM f l = inr l') <-> Forall (fun a => exists b, f a = inr b) l.
Proof.
  induction l as [|a l IH]; simpl.
  - split; [constructor | intros _; now exists []].
  - split.
    + intros [l' H]. destruct (f a) as [e|b] eqn:E; [discriminate|].
      cbn [bind] in H. destruct (filterM f l) as [e|bs]; [discriminate|].
      constructor; [now exists b | apply IH; now exists bs].
    + intros H. inversion H as [|a' l0 [b E] F]. subst.
      apply IH in F as [bs M]. rewrite E, M. now eexists.
Qed.

Lemma get_succeeds v p : (exists x, get v p = inr x) <-> is_nullish v = false.
Proof.
  split.
  - intros [x H]. destruct v; try reflexivity; discriminate.
  - intros N. rewrite (get_get_opt _ _ N). now eexists.
Qed.


Section KeywordLineProperties.
Context {rt : Runtime}.





End KeywordLineProperties.

Section CountingProperties.
Context {rt : Runtime}.

Lemma has_position_succeeds k :
  (exists b, has_position k = inr b) -> is_nullish k = false.
Proof.
  intros [b H]. destruct k; try reflexivity; discriminate.
Qed.

Lemma keywords_with_position_shape result found :
  keywords_with_position result = inr found ->
  exists keywords,
    result_keywords result = Some keywords /\
    Forall (fun k => is_nullish k = false) keywords.
Proof.
  unfold keywords_with_position, result_keywords.
  destruct result as [| | | | | |rprops]; try discriminate.
  cbn [get get_opt ret bind].
  destruct (lookup "categories" rprops) as [| | | | |cats|]; try discriminate.
  cbn [array_method ret bind].
  destruct (mapM _ cats) as [e|found'] eqn:M; [discriminate|]. intros _.
  revert found' M. induction cats as [|cat cats IH]; intros found' M.
  - exists []. split; [reflexivity | constructor].
  - cbn [mapM] in M.
    destruct cat as [| | | | | |cprops]; try discriminate M.
    cbn [get ret bind] in M.
    destruct (lookup "keywords" cprops) as [| | | | |ks|] eqn:K; try discriminate M.
    cbn [array_method ret bind] in M.
    destruct (filterM has_position ks) as [e|kept] eqn:F; [discriminate M|].
    cbn [bind] in M.
    destruct (mapM _ cats) as [e|rest] eqn:M'; [discriminate M|].
    destruct (IH rest eq_refl) as (more & A & N).
    exists (ks ++ more)%list. split.
    + cbn [all_keywords]. unfold category_keywords. cbn [get_opt].
      now rewrite K, A.
    + apply Forall_app. split; [|assumption].
      assert (S : exists l', filterM has_position ks = inr l') by now exists kept.
      apply filterM_succeeds in S. revert S. apply Forall_impl.
      intros k. apply has_position_succeeds.
Qed.


Lemma all_keywords_of cats keywords cat :
  all_keywords cats = Some keywords -> In cat cats ->
  exists ks, category_keywords cat = Some ks /\ incl ks keywords.
Proof.
  revert keywords. induction cats as [|c cats IH]; intros keywords A I;
    [destruct I|].
  cbn [all_keywords] in A.
  destruct (category_keywords c) as [ks|] eqn:C; [|discriminate].
  destruct (all_keywords cats) as [more|]; [|discriminate].
  apply Some_inj in A. subst keywords. destruct I as [<-|I].
  - exists ks. split; [assumption|]. now apply incl_appl.
  - destruct (IH more eq_refl I) as (ks' & C' & S).
    exists ks'. split; [assumption|]. now apply incl_appr.
Qed.

(** X14. With GSC data, the report needs every keyword of every category,
    displayed or not: a category whose [keywords] is not an array, or that
    holds an undefined or null keyword, makes the formatter throw, even when
    the category's count is 0 (its own text is then the placeholder, built
    without the list) or the keyword comes after the tenth. *)
Theorem unreadable_keyword_fails_the_report sv data result cats cat :
  truthy (get_opt result "has_gsc_data") = true ->
  get_opt result "categories" = VArr cats ->
  In cat cats ->
  category_keywords cat = None \/
  (exists ks k, category_keywords cat = Some ks /\ In k ks /\ is_nullish k = true) ->
  exists e, format_keywords_by_categories sv data result = inl e.
Proof.
  intros G C I B.
  destruct (format_keywords_by_categories sv data result) as [e|text] eqn:F;
    [now exists e|]. exfalso.
  unfold format_keywords_by_categories in F.
  assert (N : is_nullish result = false).
  { destruct result; try reflexivity; discriminate. }
  rewrite (get_get_opt _ _ N) in F. cbn [bind] in F. rewrite G in F.
  cbn [bind negb] in F.
  destruct (categoriesText sv result) as [e|ctext]; [discriminate F|].
  cbn [bind] in F. unfold totalWithPosition in F.
  destruct (keywords_with_position result) as [e|found] eqn:W; [discriminate F|].
  destruct (keywords_with_position_shape _ _ W) as (keywords & R & NN).
  unfold result_keywords in R. rewrite C in R.
  destruct (all_keywords_of _ _ _ R I) as (ks & K & S).
  destruct B as [B | (ks' & k & K' & J & U)]; [congruence|].
  rewrite K in K'. apply Some_inj in K'. subst ks'.
  rewrite Forall_forall in NN. rewrite (NN k (S k J)) in U. discriminate.
Qed.

End CountingProperties.

Lemma unreadable_keyword_fails_the_report_witness :
  exists e,
    format_keywords_by_categories (rt := example_runtime) Server_2_0_0 (VObj [])
      (VObj [("has_gsc_data", VBool true);
             ("categories",
              VArr [VObj [("category_name", VStr "blog");
                          ("keywords_count", VNum 0)]])]) = inl e.
Proof.
  apply (unreadable_keyword_fails_the_report (rt := example_runtime)
           Server_2_0_0 (VObj [])
           (VObj [("has_gsc_data", VBool true);
                  ("categories",
                   VArr [VObj [("category_name", VStr "blog");
                               ("keywords_count", VNum 0)]])])
           [VObj [("category_name", VStr "blog"); ("keywords_count", VNum 0)]]
           (VObj [("category_name", VStr "blog"); ("keywords_count", VNum 0)])).
  - reflexivity.
  - reflexivity.
  - left. reflexivity.
  - left. reflexivity.
Defined.

(** ** The average position lies among the positions *)


Section AverageProperties.
Context {rt : Runtime}.



End AverageProperties.


(** ** The text of a category, and the report without GSC data *)


Section CategoryProperties.
Context {rt : Runtime}.




End CategoryProperties.



(** ** The list reports *)

Section ListProperties.
Context {rt : Runtime}.




End ListProperties.

(** ** Ranking changes, metrics and titles *)


Section OtherReportProperties.
Context {rt : Runtime}.








(** X22. The title of a category.  Both servers print the upper-cased name
    when it is a string.  When it is not, the 2.0.0 server prints the
    upper-cased "Sans nom" for a falsy name and throws for any other; the
    1.1.3 server throws whenever the name is not a string, a missing name
    included. *)
Theorem category_title_succeeds_iff sv category :
  ((exists title, category_title sv category = inr title) <->
   is_nullish category = false /\
   ((exists s, get_opt category "category_name" = VStr s) \/
    (sv = Server_2_0_0 /\ truthy (get_opt category "category_name") = false))) /\
  (forall s, get_opt category "category_name" = VStr s -> s <> "" ->
             category_title sv category = inr (toUpperCase s)) /\
  (is_nullish category = false ->
   truthy (get_opt category "category_name") = false ->
   category_title Server_2_0_0 category = inr (toUpperCase "Sans nom")).
Proof.
  unfold category_title. split; [|split].
  - split.
    + intros [title H].
      assert (N : is_nullish category = false).
      { destruct category; try reflexivity; discriminate H. }
      split; [assumption|]. rewrite (get_get_opt _ _ N) in H. cbn [bind] in H.
      destruct sv.
      * unfold js_or in H.
        destruct (truthy (get_opt category "category_name")) eqn:T;
          [left | right; now split].
        destruct (get_opt category "category_name") as [| | | |s| |];
          try discriminate H. now exists s.
      * left. destruct (get_opt category "category_name") as [| | | |s| |];
          try discriminate H. now exists s.
    + intros (N & [[s E] | (-> & T)]); rewrite (get_get_opt _ _ N); cbn [bind].
      * rewrite E. unfold js_or. destruct sv; [|now eexists].
        destruct (truthy (VStr s)); now eexists.
      * unfold js_or. rewrite T. now eexists.
  - intros s E S.
    assert (N : is_nullish category = false).
    { destruct category; try reflexivity; discriminate E. }
    rewrite (get_get_opt _ _ N). cbn [bind]. rewrite E.
    destruct sv; [|reflexivity]. unfold js_or. cbn [truthy].
    apply String.eqb_neq in S. now rewrite S.
  - intros N T. rewrite (get_get_opt _ _ N). cbn [bind]. unfold js_or.
    now rewrite T.
Qed.

End OtherReportProperties.


(** ** The keyword tools of the 1.1.3 server *)

Section KeywordToolProperties.
Context {rt : Runtime}.





End KeywordToolProperties.

(** ** The performance summary *)

Section SummaryProperties.
Context {rt : Runtime}.




End SummaryProperties.



